(** * DNSLookup: the WHOIS / DNS lookup chain of [dnslookup.py]

    A shallow embedding of [src/dnslookup.py].  Network calls
    ([whois.whois], [dns.resolver.Resolver], [Resolver.resolve],
    [tldextract.extract]) are fields of an environment record; the
    program threads a call clock and the lines written to standard output
    through a small state-and-exception monad. *)

From Stdlib Require Import String Ascii.
From stdpp Require Import base option list numbers gmap.

Set Default Proof Using "Type".
Set Warnings "-register-all".
Open Scope N_scope.

(** ** Python strings *)

(** A Python [str] is a sequence of Unicode code points. *)
Abbreviation pystr := (list N).

(** A literal of the source, given by its ASCII characters. *)
Fixpoint py (s : string) : pystr :=
  match s with
  | EmptyString => []
  | String c s' => N_of_ascii c :: py s'
  end.

Arguments py : simpl never.

(** [Py_UNICODE_ISSPACE]: the code points removed by [str.strip()] when
    it is called without an argument. *)
Definition is_space (c : N) : bool :=
  ((9 <=? c) && (c <=? 13)) || ((28 <=? c) && (c <=? 32))
  || (c =? 133) || (c =? 160) || (c =? 5760)
  || ((8192 <=? c) && (c <=? 8202))
  || (c =? 8232) || (c =? 8233) || (c =? 8239) || (c =? 8287)
  || (c =? 12288).

Fixpoint lstrip_by (p : N -> bool) (s : pystr) : pystr :=
  match s with
  | [] => []
  | c :: s' => if p c then lstrip_by p s' else s
  end.

Fixpoint rstrip_by (p : N -> bool) (s : pystr) : pystr :=
  match s with
  | [] => []
  | c :: s' =>
      match rstrip_by p s' with
      | [] => if p c then [] else [c]
      | r => c :: r
      end
  end.

(** [s.strip()] *)
Definition strip (s : pystr) : pystr := rstrip_by is_space (lstrip_by is_space s).

(** [s.rstrip(chars)] *)
Definition rstrip (chars s : pystr) : pystr :=
  rstrip_by (fun c => bool_decide (c ∈ chars)) s.

(** Truth value of a [str]: false exactly for the empty string. *)
Definition str_truthy (s : pystr) : bool :=
  match s with [] => false | _ => true end.

(** [sep.join(l)] *)
Fixpoint join (sep : pystr) (l : list pystr) : pystr :=
  match l with
  | [] => []
  | [s] => s
  | s :: l' => s ++ sep ++ join sep l'
  end.

(** ** Python values found in a WHOIS record *)

(** A field of a WHOIS record is [None], a [str], a [list], or some
    other object (a [datetime], a number), of which only the truth value
    and the text given by [str()] are observed. *)
Inductive pyval : Type :=
  | VNone
  | VStr (s : pystr)
  | VList (l : list pyval)
  | VOther (truth : bool) (text : pystr).

Definition truthy (v : pyval) : bool :=
  match v with
  | VNone => false
  | VStr s => str_truthy s
  | VList l => match l with [] => false | _ => true end
  | VOther b _ => b
  end.

(** [a or b] *)
Definition py_or (a b : pyval) : pyval := if truthy a then a else b.

(** One step of the comprehension at line 95: an item is kept when
    [isinstance(item, str) and item.strip()] holds. *)
Definition kept_item (item : pyval) : option pystr :=
  match item with
  | VStr s => if str_truthy (strip s) then Some s else None
  | _ => None
  end.

Definition Not_Found : pystr := py "Not Found".

(** Lines 89-100. *)
Definition get_primary_whois_value (data : pyval) : pystr :=
  match data with
  | VNone => Not_Found
  | VList l =>
      let filtered_list := omap kept_item l in
      match filtered_list with
      | item :: _ => item
      | [] => Not_Found
      end
  | VStr s => if str_truthy (strip s) then strip s else Not_Found
  | VOther _ text => text
  end.

(** ** Exceptions, effects and the environment *)

(** The exception classes named in the [except] clauses of the source,
    and [AttributeError], which the interpreter raises when a name such
    as [whois.exceptions.UnknownTld] does not exist. *)
Inductive exc_class : Type :=
  | UnknownTld | WhoisCommandFailed | PywhoisError | socket_timeout
  | NXDOMAIN | NoAnswer | NoNameservers | Timeout
  | Exception
  | AttributeError.

#[global] Instance exc_class_eq_dec : EqDecision exc_class.
Proof. solve_decision. Defined.

(** A raised exception object: which of the classes above it is an
    instance of, and the text [str(e)] interpolated into messages.  An
    object that is not an instance of [Exception] stands for a
    [KeyboardInterrupt] or a [SystemExit]. *)
Record exc : Type := { exc_isinstance : exc_class -> bool; exc_str : pystr }.

(** An exception that is an instance of exactly the listed classes. *)
Definition mk_exc (classes : list exc_class) (text : pystr) : exc :=
  {| exc_isinstance := fun c => bool_decide (c ∈ classes); exc_str := text |}.

(** The name of a class of [whois.exceptions], as the source writes it. *)
Definition class_name (c : exc_class) : pystr :=
  match c with
  | UnknownTld => py "UnknownTld"
  | WhoisCommandFailed => py "WhoisCommandFailed"
  | PywhoisError => py "PywhoisError"
  | _ => []
  end.

(** What evaluating [whois.exceptions.<name>] raises when the module has
    no such name. *)
Definition no_attribute (c : exc_class) : exc :=
  mk_exc [AttributeError; Exception]
    (py "module 'whois.exceptions' has no attribute '" ++ class_name c ++ py "'").

Inductive result (A : Type) : Type :=
  | Return (a : A)
  | Raise (e : exc).
Arguments Return {A} a.
Arguments Raise {A} e.

(** The state threaded through the program: the number of external calls
    made so far, and the lines printed so far (oldest first). *)
Record state : Type := { clock : nat; stdout : list pystr }.

Definition M (A : Type) : Type := state -> result A * state.

Definition ret {A} (a : A) : M A := fun st => (Return a, st).

Definition bind {A B} (m : M A) (k : A -> M B) : M B :=
  fun st =>
    match m st with
    | (Return a, st') => k a st'
    | (Raise e, st') => (Raise e, st')
    end.

Notation "'let*' x ':=' m 'in' k" := (bind m (fun x => k))
  (at level 10, x name, m at level 100, k at level 200).
Notation "m '>>' k" := (bind m (fun _ => k))
  (at level 90, right associativity).

(** [print(line)] *)
Definition print (line : pystr) : M unit :=
  fun st => (Return tt, {| clock := clock st; stdout := stdout st ++ [line] |}).

Definition tick (st : state) : state :=
  {| clock := S (clock st); stdout := stdout st |}.

(** An external call: it is answered by the environment at the current
    clock value, and advances the clock. *)
Definition call {A} (f : nat -> result A) : M A :=
  fun st => (f (clock st), tick st).

(** [try: body / except C1: h1 / except C2: h2 ...]: the first clause one
    of whose classes the exception is an instance of handles it; with no
    such clause the exception propagates. *)
Fixpoint handle {A} (clauses : list (list exc_class * (exc -> M A))) (e : exc) : M A :=
  match clauses with
  | [] => fun st => (Raise e, st)
  | (classes, h) :: rest =>
      if existsb (exc_isinstance e) classes then h e else handle rest e
  end.

Definition try_except {A} (body : M A)
    (clauses : list (list exc_class * (exc -> M A))) : M A :=
  fun st =>
    match body st with
    | (Return a, st') => (Return a, st')
    | (Raise e, st') => handle clauses e st'
    end.

(** The same, for clauses whose classes are names looked up in a module
    when the clause is reached: [defined] tells which names the module
    has.  Reaching a clause that names a class the module lacks raises
    [AttributeError] out of the whole [try] statement, whatever the
    exception being handled and whatever clauses follow. *)
Fixpoint handle_lookup {A} (defined : exc_class -> bool)
    (clauses : list (list exc_class * (exc -> M A))) (e : exc) : M A :=
  match clauses with
  | [] => fun st => (Raise e, st)
  | (classes, h) :: rest =>
      match find (fun c => negb (defined c)) classes with
      | Some c => fun st => (Raise (no_attribute c), st)
      | None =>
          if existsb (exc_isinstance e) classes then h e
          else handle_lookup defined rest e
      end
  end.

Definition try_except_lookup {A} (defined : exc_class -> bool) (body : M A)
    (clauses : list (list exc_class * (exc -> M A))) : M A :=
  fun st =>
    match body st with
    | (Return a, st') => (Return a, st')
    | (Raise e, st') => handle_lookup defined clauses e st'
    end.

(** An operation that returns or raises without touching the state. *)
Definition lift {A} (r : result A) : M A := fun st => (r, st).

(** A WHOIS record is a dictionary from field names to values. *)
Abbreviation whois_entry := (gmap pystr pyval).

(** [d.get(key)] *)
Definition get (d : whois_entry) (key : pystr) : pyval := default VNone (d !! key).

(** Truth value of a dictionary: false exactly when it has no key. *)
Definition dict_truthy (d : whois_entry) : bool := negb (Nat.eqb (size d) 0).

(** A resource record, reduced to what [rdata.to_text()] does: it
    yields a text or raises. *)
Record rdata : Type := { to_text : result pystr }.

(** The [Answer] of a DNS query: its [rrset] attribute is [None] or a
    sequence of records. *)
Record answer : Type := { rrset : option (list rdata) }.

(** The outside world.  Every function takes the clock value of the call,
    so two calls with the same arguments need not agree. *)
Record env : Type := {
  (** [whois.whois(domain)] *)
  whois_whois : nat -> pystr -> result whois_entry;
  (** [dns.resolver.Resolver()] *)
  dns_resolver_Resolver : nat -> result unit;
  (** [resolver.resolve(domain, record_type, raise_on_no_answer=b)] *)
  resolver_resolve : nat -> pystr -> pystr -> bool -> result answer;
  (** [tldextract.extract(fqdn, include_psl_private_domains=True)], read
      through its [registered_domain] attribute *)
  tldextract_extract : nat -> pystr -> result pystr;
  (** [s.lower()], the Unicode case mapping of the interpreter *)
  str_lower : pystr -> pystr;
  (** which of [UnknownTld], [WhoisCommandFailed] and [PywhoisError] the
      module [whois.exceptions] of the installed library defines *)
  whois_exceptions : exc_class -> bool
}.

(** Whether a class named in an [except] clause of [get_whois_info]
    exists when the clause is reached: the three names of
    [whois.exceptions] are looked up in that module; [socket.timeout] and
    [Exception] always exist. *)
Definition whois_class_defined (E : env) (c : exc_class) : bool :=
  match c with
  | UnknownTld | WhoisCommandFailed | PywhoisError => whois_exceptions E c
  | _ => true
  end.

(** ** WHOIS client *)

(** Lines 11-31. *)
Definition get_whois_info (E : env) (domain : pystr) : M (option whois_entry) :=
  try_except_lookup (whois_class_defined E)
    (let* w := call (fun t => whois_whois E t domain) in ret (Some w))
    [ ([UnknownTld], fun _ =>
         print (py "Warning: WHOIS lookup failed for '" ++ domain ++ py "'. Unknown TLD.")
         >> ret None);
      ([WhoisCommandFailed], fun e =>
         print (py "Warning: WHOIS command execution failed for '" ++ domain
                ++ py "': " ++ exc_str e)
         >> ret None);
      ([PywhoisError], fun e =>
         print (py "Warning: WHOIS lookup error for '" ++ domain ++ py "': " ++ exc_str e)
         >> ret None);
      ([socket_timeout], fun _ =>
         print (py "Warning: WHOIS lookup for '" ++ domain ++ py "' timed out.")
         >> ret None);
      ([Exception], fun e =>
         print (py "Warning: An unexpected error occurred during WHOIS lookup for '"
                ++ domain ++ py "': " ++ exc_str e)
         >> ret None) ].

(** ** DNS client *)

(** [f"No {record_type} records found."] (lines 57, 59 and 61). *)
Definition no_records_found (record_type : pystr) : pystr :=
  py "No " ++ record_type ++ py " records found.".

(** Lines 51-59: the CNAME probe made when an NS query has no result
    set; it yields the value assigned to [error_msg]. *)
Definition cname_probe (E : env) (domain record_type : pystr) : M (option pystr) :=
  try_except
    (let* cname_answer := call (fun t => resolver_resolve E t domain (py "CNAME") true) in
     match rrset cname_answer with
     | Some (r :: _) =>
         let* text := lift (to_text r) in
         let cname_target := rstrip (py ".") text in
         ret (Some (py "No direct " ++ record_type
                    ++ py " records found, but found CNAME: " ++ cname_target))
     | _ => ret (Some (no_records_found record_type))
     end)
    [ ([NoAnswer; NXDOMAIN], fun _ => ret (Some (no_records_found record_type))) ].

(** How the [try] block of lines 41-67 is left without an exception:
    through the [return] of line 62, or at its end with the values of
    [records] and [error_msg]. *)
Inductive try_exit : Type :=
  | Returned (value : list pystr * option pystr)
  | Fell_through (records : list pystr) (error_msg : option pystr).

(** Lines 65-67: the loop over the records of the answer, started with
    the given value of [records].  With its outcome it yields the value
    of [records] when it ends: all the records stripped, or those
    appended before [to_text] raised. *)
Fixpoint for_rdata_in_answer (rdatas : list rdata) (records : list pystr)
    : result try_exit * list pystr :=
  match rdatas with
  | [] => (Return (Fell_through records None), records)
  | r :: rest =>
      match to_text r with
      | Return text => for_rdata_in_answer rest (records ++ [rstrip (py ".") text])
      | Raise e => (Raise e, records)
      end
  end.

(** Lines 42-67: the body of the [try] block.  With its outcome it
    yields the value the local variable [records] has when the block is
    left, which is what the [except] clauses then see. *)
Definition dns_query (E : env) (domain record_type : pystr)
    : state -> (result try_exit * list pystr) * state :=
  fun st =>
    match (call (dns_resolver_Resolver E) >>
           call (fun t => resolver_resolve E t domain record_type false)) st with
    | (Raise e, st') => ((Raise e, []), st')
    | (Return answer, st') =>
        match rrset answer with
        | None =>
            let '(r, st'') :=
              (let* error_msg :=
                 if bool_decide (record_type = py "NS")
                 then cname_probe E domain record_type
                 else ret (Some (no_records_found record_type)) in
               ret (Returned ([], error_msg))) st' in
            ((r, []), st'')
        | Some rdatas => (for_rdata_in_answer rdatas [], st')
        end
    end.

(** Lines 69-80: the [except] clauses; each sets [error_msg] and leaves
    [records] as it is. *)
Definition dns_handlers (domain record_type : pystr) (records : list pystr)
    : list (list exc_class * (exc -> M try_exit)) :=
  [ ([NXDOMAIN], fun _ =>
       ret (Fell_through records
              (Some (py "Domain '" ++ domain ++ py "' does not exist (NXDOMAIN)."))));
    ([NoAnswer], fun _ =>
       ret (Fell_through records
              (Some (py "No " ++ record_type ++ py " records found for '"
                     ++ domain ++ py "'."))));
    ([NoNameservers], fun _ =>
       ret (Fell_through records
              (Some (py "Could not contact nameservers for '" ++ domain ++ py "'."))));
    ([Timeout], fun _ =>
       ret (Fell_through records
              (Some (py "DNS query for " ++ record_type ++ py " records of '"
                     ++ domain ++ py "' timed out."))));
    ([Exception], fun e =>
       ret (Fell_through records
              (Some (py "An unexpected DNS error occurred for '" ++ domain
                     ++ py "' (" ++ record_type ++ py "): " ++ exc_str e)))) ].

(** [try: body / except ...] for a body that yields the value of
    [records]: the clauses are those for that value. *)
Definition try_except_records {A}
    (body : state -> (result A * list pystr) * state)
    (clauses : list pystr -> list (list exc_class * (exc -> M A))) : M A :=
  fun st =>
    match body st with
    | ((Return a, _), st') => (Return a, st')
    | ((Raise e, records), st') => handle (clauses records) e st'
    end.

(** Lines 82-85: the fallback message and the final [return]. *)
Definition dns_finish (record_type : pystr) (records : list pystr)
    (error_msg : option pystr) : list pystr * option pystr :=
  let not_records := match records with [] => true | _ => false end in
  let not_error_msg :=
    match error_msg with None => true | Some m => negb (str_truthy m) end in
  let error_msg :=
    if not_records && not_error_msg
    then Some (py "No " ++ record_type ++ py " records found (or query failed silently).")
    else error_msg in
  (records, error_msg).

(** Lines 34-85. *)
Definition get_dns_records (E : env) (domain record_type : pystr)
    : M (list pystr * option pystr) :=
  let* exit := try_except_records (dns_query E domain record_type)
                                  (dns_handlers domain record_type) in
  match exit with
  | Returned value => ret value
  | Fell_through records error_msg => ret (dns_finish record_type records error_msg)
  end.

(** ** Domain extractor *)

(** Lines 103-119. *)
Definition get_registrable_domain (E : env) (fqdn : pystr) : M (option pystr) :=
  if negb (str_truthy fqdn) then ret None
  else
    try_except
      (let* registered_domain := call (fun t => tldextract_extract E t fqdn) in
       if str_truthy registered_domain then ret (Some registered_domain)
       else
         print (py "Warning: Could not extract registrable domain from '" ++ fqdn ++ py "'")
         >> ret None)
      [ ([Exception], fun e =>
           print (py "Error using tldextract on " ++ fqdn ++ py ": " ++ exc_str e)
           >> ret None) ].

(** ** Orchestrator *)

Definition WHOIS_Lookup_Failed : pystr := py "WHOIS Lookup Failed".
Definition Skipped : pystr := py "Skipped (No nameserver found).".

(** Lines 148-173: the values of [registrant] and [registrar]. *)
Definition registrant_registrar (domain_whois : option whois_entry) : pystr * pystr :=
  match domain_whois with
  | Some w =>
      if dict_truthy w then
        let registrant_name :=
          get_primary_whois_value
            (py_or (get w (py "name")) (get w (py "registrant_name"))) in
        let registrant_org :=
          get_primary_whois_value
            (py_or (get w (py "org")) (get w (py "registrant_organization"))) in
        let registrant :=
          if bool_decide (registrant_name ≠ Not_Found) then registrant_name
          else if bool_decide (registrant_org ≠ Not_Found) then registrant_org
          else Not_Found in
        let registrar := get_primary_whois_value (get w (py "registrar")) in
        let registrar :=
          if bool_decide (registrar = Not_Found) then
            let url := get_primary_whois_value (get w (py "registrar_url")) in
            if bool_decide (url ≠ Not_Found) then py "URL: " ++ url else registrar
          else registrar in
        (registrant, registrar)
      else (WHOIS_Lookup_Failed, WHOIS_Lookup_Failed)
  | None => (WHOIS_Lookup_Failed, WHOIS_Lookup_Failed)
  end.

(** Lines 181-189: the value of [first_nameserver]. *)
Definition select_first_nameserver (nameservers : list pystr)
    (ns_error_msg : option pystr) : M (option pystr) :=
  let no_error_branch :=
    match nameservers with
    | first :: _ =>
        print (py "Nameservers: " ++ join (py ", ") nameservers) >> ret (Some first)
    | [] => print (py "No nameservers identified.") >> ret None
    end in
  match ns_error_msg with
  | Some m =>
      if str_truthy m then print (py "Error: " ++ m) >> ret None
      else no_error_branch
  | None => no_error_branch
  end.

(** Lines 203-207: the value of [ns_registrar_info] read from the WHOIS
    record of the owner domain of the nameserver. *)
Definition registrar_or_owner_org (ns_domain_whois : whois_entry) : pystr :=
  let ns_registrar_info := get_primary_whois_value (get ns_domain_whois (py "registrar")) in
  if bool_decide (ns_registrar_info = Not_Found) then
    let org := get_primary_whois_value (get ns_domain_whois (py "org")) in
    if bool_decide (org ≠ Not_Found)
    then py "Owner Org: " ++ org ++ py " (Registrar Not Found)"
    else ns_registrar_info
  else ns_registrar_info.

(** The local variables of [main] when it returns.  [ns_owner_domain] and
    [ns_domain_whois] are bound only on the paths that reach lines 197
    and 200; elsewhere the record holds [None] for them. *)
Record locals : Type := {
  domain_to_check : pystr;
  domain_whois : option whois_entry;
  registrant : pystr;
  registrar : pystr;
  nameservers : list pystr;
  ns_error_msg : option pystr;
  first_nameserver : option pystr;
  ns_owner_domain : option pystr;
  ns_domain_whois : option whois_entry;
  ns_registrar_info : pystr
}.

(** Lines 194-213: the values of [ns_owner_domain], [ns_domain_whois] and
    [ns_registrar_info]. *)
Definition infer_hosting_provider (E : env) (first_nameserver : option pystr)
    : M (option pystr * option whois_entry * pystr) :=
  match first_nameserver with
  | Some ns =>
      if str_truthy ns then
        let* ns_owner_domain := get_registrable_domain E ns in
        let no_owner_domain :=
          py "Could not determine owner domain from '" ++ ns ++ py "'." in
        match ns_owner_domain with
        | Some owner =>
            if str_truthy owner then
              let* ns_domain_whois := get_whois_info E owner in
              let lookup_failed := py "WHOIS Lookup Failed for " ++ owner in
              match ns_domain_whois with
              | Some w =>
                  if dict_truthy w
                  then ret (ns_owner_domain, ns_domain_whois, registrar_or_owner_org w)
                  else ret (ns_owner_domain, ns_domain_whois, lookup_failed)
              | None => ret (ns_owner_domain, ns_domain_whois, lookup_failed)
              end
            else ret (ns_owner_domain, None, no_owner_domain)
        | None => ret (ns_owner_domain, None, no_owner_domain)
        end
      else ret (None, None, Skipped)
  | None => ret (None, None, Skipped)
  end.

(** Lines 141-218, from the parsed command-line argument [args.domain]. *)
Definition main (E : env) (args_domain : pystr) : M locals :=
  let domain_to_check := strip (str_lower E args_domain) in
  print (py "--- Checking Domain: " ++ domain_to_check ++ py " ---" ++ [10]) >>
  let* domain_whois := get_whois_info E domain_to_check in
  let '(registrant, registrar) := registrant_registrar domain_whois in
  print (py "Domain Registrant: " ++ registrant) >>
  print (py "Domain Registrar: " ++ registrar) >>
  let* ns := get_dns_records E domain_to_check (py "NS") in
  let '(nameservers, ns_error_msg) := ns in
  let* first_nameserver := select_first_nameserver nameservers ns_error_msg in
  let* inferred := infer_hosting_provider E first_nameserver in
  let '(ns_owner_domain, ns_domain_whois, ns_registrar_info) := inferred in
  print (py "Inferred DNS Hosting Provider: " ++ ns_registrar_info) >>
  print ([10] ++ py "--- Check Complete for: " ++ domain_to_check ++ py " ---") >>
  ret {| domain_to_check := domain_to_check;
         domain_whois := domain_whois;
         registrant := registrant;
         registrar := registrar;
         nameservers := nameservers;
         ns_error_msg := ns_error_msg;
         first_nameserver := first_nameserver;
         ns_owner_domain := ns_owner_domain;
         ns_domain_whois := ns_domain_whois;
         ns_registrar_info := ns_registrar_info |}.

(** ** Sample environments *)

Definition init : state := {| clock := 0; stdout := [] |}.

(** The names that [whois.exceptions] of python-whois, the library named
    in [setup.py], defines among the three the source refers to:
    [PywhoisError], and neither [UnknownTld] nor [WhoisCommandFailed]. *)
Definition python_whois_exceptions (c : exc_class) : bool :=
  match c with
  | PywhoisError => true
  | _ => false
  end.

(** An environment that answers every WHOIS query with [whois], every
    CNAME query with [cname], every other DNS query with [ns], and every
    extraction with [registered]; the WHOIS library is python-whois. *)
Definition sample_env (whois : result whois_entry) (ns cname : result answer)
    (registered : pystr) : env :=
  {| whois_whois := fun _ _ => whois;
     dns_resolver_Resolver := fun _ => Return tt;
     resolver_resolve := fun _ _ record_type _ =>
       if bool_decide (record_type = py "CNAME") then cname else ns;
     tldextract_extract := fun _ _ => Return registered;
     str_lower := fun s => s;
     whois_exceptions := python_whois_exceptions |}.

Definition answer_of (texts : list pystr) : result answer :=
  Return {| rrset := Some (map (fun t => {| to_text := Return t |}) texts) |}.

Definition no_records : result answer := Return {| rrset := None |}.

Definition acme_record : whois_entry :=
  {[ py "registrar" := VList [VStr (py ""); VStr (py "Acme Registrar")];
     py "org" := VStr (py " Acme Inc. ") ]}.

(** No network: every WHOIS query times out and no nameserver can be
    reached. *)
Definition E_offline : env :=
  sample_env (Raise (mk_exc [socket_timeout; Exception] (py "timed out")))
             (Raise (mk_exc [NoNameservers; Exception] (py "SERVFAIL")))
             (Raise (mk_exc [NoNameservers; Exception] (py "SERVFAIL")))
             [].

(** A domain with two nameservers. *)
Definition E_acme : env :=
  sample_env (Return acme_record)
             (answer_of [py "ns1.acme.net."; py "ns2.acme.net."]) no_records
             (py "acme.net").

(** A domain without NS records that is an alias. *)
Definition E_cname : env :=
  sample_env (Return acme_record) no_records (answer_of [py "www.acme.net."])
             (py "acme.net").

(** A domain without NS records and without a CNAME. *)
Definition E_no_cname : env :=
  sample_env (Return acme_record) no_records
             (Raise (mk_exc [NoAnswer; Exception] (py "no answer")))
             (py "acme.net").

(** A domain whose only NS record names the root. *)
Definition E_root : env :=
  sample_env (Return acme_record) (answer_of [py "."]) no_records (py "acme.net").

(** WHOIS queries answered by a record without any field. *)
Definition E_hollow : env :=
  sample_env (Return ∅) (answer_of [py "ns1.acme.net."]) no_records (py "acme.net").

(** A domain whose NS answer carries a result set without records. *)
Definition E_blank : env :=
  sample_env (Return acme_record) (answer_of []) no_records (py "acme.net").

(** A domain whose second NS record cannot be rendered. *)
Definition E_unrenderable : env :=
  sample_env (Return acme_record)
             (Return {| rrset := Some [ {| to_text := Return (py "ns1.acme.net.") |};
                                        {| to_text := Raise (mk_exc [Exception]
                                                               (py "bad record")) |} ] |})
             no_records (py "acme.net").

(** A domain whose WHOIS query fails: the registry has no match. *)
Definition E_no_match : env :=
  sample_env (Raise (mk_exc [PywhoisError; Exception] (py "No match for domain")))
             (answer_of [py "ns1.acme.net."]) no_records (py "acme.net").

Definition example_org : pystr := py "example.org".

(** ** Predicates and specification-side definitions *)

(** The three shapes a well-formed WHOIS field takes: absent, a bare
    string, or a list (whose entries may be anything). *)
Definition whois_shape (data : pyval) : bool :=
  match data with
  | VOther _ _ => false
  | _ => true
  end.

(** A record string that does not end with a dot. *)
Definition no_trailing_dot (record : pystr) : Prop := last record ≠ Some 46.

(** A record whose [to_text()] yields a text. *)
Definition renders (r : rdata) : Prop := ∃ text, to_text r = Return text.

(** What an exit of the [try] block looks like: the early [return]
    carries no records and a message; at the end of the block, or of a
    handler, no record ends with a dot and the message, when there is
    one, is not empty. *)
Definition exit_ok (exit : try_exit) : Prop :=
  match exit with
  | Returned (records, error_msg) =>
      records = [] ∧ ∃ m, error_msg = Some m ∧ str_truthy m = true
  | Fell_through records error_msg =>
      Forall no_trailing_dot records
      ∧ (error_msg = None ∨ ∃ m, error_msg = Some m ∧ str_truthy m = true)
  end.

(** The outcomes of the CNAME probe that mean there is no CNAME: the
    handled exceptions of line 58, or an answer without records. *)
Definition cname_absent (probe : result answer) : Prop :=
  match probe with
  | Return a => rrset a = None ∨ rrset a = Some []
  | Raise e => exc_isinstance e NoAnswer = true ∨ exc_isinstance e NXDOMAIN = true
  end.

(** The message of line 211. *)
Definition no_owner_domain (ns : pystr) : pystr :=
  py "Could not determine owner domain from '" ++ ns ++ py "'.".

(** The message of line 209. *)
Definition lookup_failed (owner : pystr) : pystr :=
  py "WHOIS Lookup Failed for " ++ owner.

(** The derivation of the hosting provider from a WHOIS record, as the
    specification words it: the registrar if present, else the owner
    organisation if present, else "Not Found". *)
Definition registrar_else_owner_org_spec (w : whois_entry) : pystr :=
  let registrar := get_primary_whois_value (get w (py "registrar")) in
  let org := get_primary_whois_value (get w (py "org")) in
  if bool_decide (registrar ≠ Not_Found) then registrar
  else if bool_decide (org ≠ Not_Found)
       then py "Owner Org: " ++ org ++ py " (Registrar Not Found)"
       else Not_Found.

(** The derivation of the hosting provider from an anchor nameserver, as
    the specification words it, given what the extraction and the WHOIS
    lookup of the owner domain returned. *)
Definition hosting_provider_spec (ns : pystr) (owner_domain : option pystr)
    (owner_whois : option whois_entry) : pystr :=
  match owner_domain with
  | None => py "Could not determine owner domain from '" ++ ns ++ py "'."
  | Some owner =>
      match owner_whois with
      | None => py "WHOIS Lookup Failed for " ++ owner
      | Some w => registrar_else_owner_org_spec w
      end
  end.

(** ** Packaging script *)

(** [s.startswith(prefix)] *)
Fixpoint startswith (prefix s : pystr) : bool :=
  match prefix, s with
  | [], _ => true
  | c :: prefix', d :: s' => (c =? d) && startswith prefix' s'
  | _ :: _, [] => false
  end.

(** One step of the comprehension in [get_requirements] of [setup.py]:
    a line is kept, stripped, when
    [line.strip() and not line.startswith('#')] holds. *)
Definition requirement_of_line (line : pystr) : option pystr :=
  if str_truthy (strip line) && negb (startswith (py "#") line)
  then Some (strip line) else None.

(** [get_requirements] of [setup.py].  [open_file] stands for
    [open(file_path, 'r')] followed by the iteration over the lines of
    the file, each with its line terminator; it raises when the file
    cannot be opened, and nothing in the function catches that. *)
Definition get_requirements (open_file : pystr -> result (list pystr))
    (file_path : pystr) : result (list pystr) :=
  match open_file file_path with
  | Return f => Return (omap requirement_of_line f)
  | Raise e => Raise e
  end.

(** A requirements file: a comment, a padded entry, a blank line, an
    indented comment and a last line without terminator. *)
Definition requirements_txt : list pystr :=
  [ py "# runtime" ++ [10];
    py "dnspython>=2.0 " ++ [10];
    [10];
    py "  # pinned" ++ [10];
    py "tldextract" ].

Definition open_requirements (file_path : pystr) : result (list pystr) :=
  if bool_decide (file_path = py "requirements.txt") then Return requirements_txt
  else Raise (mk_exc [Exception] (py "No such file or directory")).

(** A WHOIS record whose "name" is a list of blank strings. *)
Definition blank_name_record : whois_entry :=
  {[ py "name" := VList [VStr (py " ")];
     py "registrant_name" := VStr (py "Alice");
     py "org" := VStr (py "Acme Inc.") ]}.

Definition E_blank_name : env :=
  sample_env (Return blank_name_record) (answer_of [py "ns1.acme.net."]) no_records
             (py "acme.net").

(** ** Footprints *)

(** [st'] is reached from [st] by between [cmin] and [cmax] external
    calls and by printing [out]. *)
Definition footprint (cmin cmax : nat) (out : list pystr) (st st' : state) : Prop :=
  (clock st + cmin <= clock st' <= clock st + cmax)%nat
  ∧ stdout st' = stdout st ++ out.

(** * Properties *)

(** ** Stripping *)

Section stripping.
Variable p : N -> bool.

Lemma rstrip_by_last (s : pystr) (c : N) :
  last (rstrip_by p s) = Some c -> p c = false.
Proof.
  induction s as [|c0 s IH]; simpl; [done|].
  destruct (rstrip_by p s) as [|x r] eqn:Hr.
  - destruct (p c0) eqn:Hc0; simpl; [done|]. by intros [= <-].
  - simpl. exact IH.
Qed.

Lemma elem_of_rstrip_by (s : pystr) (c : N) :
  c ∈ rstrip_by p s -> c ∈ s.
Proof.
  induction s as [|c0 s IH]; simpl; [done|].
  destruct (rstrip_by p s) as [|x r] eqn:Hr.
  - destruct (p c0); [by intros ?%elem_of_nil|].
    intros ->%list_elem_of_singleton. left.
  - intros [->|Hin]%elem_of_cons; [left|right; by apply IH].
Qed.

Lemma elem_of_lstrip_by (s : pystr) (c : N) :
  c ∈ lstrip_by p s -> c ∈ s.
Proof.
  induction s as [|c0 s IH]; simpl; [done|].
  destruct (p c0); [|done]. intros Hin. right. by apply IH.
Qed.

Lemma rstrip_by_nonempty_last (s : pystr) :
  rstrip_by p s ≠ [] -> ∃ c, c ∈ rstrip_by p s ∧ p c = false.
Proof.
  intros Hne. destruct (last (rstrip_by p s)) as [c|] eqn:Hlast.
  - exists c. split; [|by eapply rstrip_by_last].
    apply last_Some in Hlast as [l' ->]. set_solver.
  - by apply last_None in Hlast.
Qed.
End stripping.

Lemma str_truthy_nonempty (s : pystr) : str_truthy s = true <-> s ≠ [].
Proof. by destruct s. Qed.

Lemma strip_truthy_nonspace (s : pystr) :
  str_truthy (strip s) = true -> ∃ c, c ∈ strip s ∧ is_space c = false.
Proof. intros H%str_truthy_nonempty. by apply rstrip_by_nonempty_last. Qed.

Lemma elem_of_strip (s : pystr) (c : N) : c ∈ strip s -> c ∈ s.
Proof. intros H%elem_of_rstrip_by. by eapply elem_of_lstrip_by. Qed.

(** No string produced by [rstrip('.')] ends with a dot. *)
Lemma rstrip_dot_last (s : pystr) : last (rstrip (py ".") s) ≠ Some 46.
Proof.
  intros H%rstrip_by_last. apply bool_decide_eq_false in H.
  apply H. vm_compute. left.
Qed.

(** ** Field normalizer *)

(** What the list branch computes: the first entry that is a string with
    a non-empty trimmed form, as it stands in the list. *)
Lemma get_primary_whois_value_list (l : list pyval) :
  get_primary_whois_value (VList l) = default Not_Found (head (omap kept_item l)).
Proof. unfold get_primary_whois_value. by destruct (omap kept_item l). Qed.

Lemma kept_item_Some (item : pyval) (s : pystr) :
  kept_item item = Some s <-> item = VStr s ∧ str_truthy (strip s) = true.
Proof.
  destruct item as [|s'| |]; simpl; try (split; [done|by intros [? _]]).
  destruct (str_truthy (strip s')) eqn:Hs; split.
  - by intros [= ->].
  - by intros [[= ->] _].
  - done.
  - intros [[= ->] ?]. congruence.
Qed.

Lemma get_primary_whois_value_nonspace (data : pyval) :
  whois_shape data = true ->
  get_primary_whois_value data = Not_Found
  ∨ ∃ c, c ∈ get_primary_whois_value data ∧ is_space c = false.
Proof.
  destruct data as [|s|l|]; intros Hshape; [by left| | |done].
  - simpl. destruct (str_truthy (strip s)) eqn:Hs; [right|by left].
    by apply strip_truthy_nonspace.
  - rewrite get_primary_whois_value_list.
    destruct (omap kept_item l) as [|s r] eqn:Hl; [by left|right]. simpl.
    assert (s ∈ omap kept_item l) as Hin by (rewrite Hl; left).
    apply list_elem_of_omap in Hin as (item & _ & [-> Hs]%kept_item_Some).
    destruct (strip_truthy_nonspace s Hs) as (c & Hc & Hsp).
    exists c. split; [by apply elem_of_strip|done].
Qed.

Lemma get_primary_whois_value_not_empty (data : pyval) :
  whois_shape data = true -> get_primary_whois_value data ≠ [].
Proof.
  intros [->|(c & Hc & _)]%get_primary_whois_value_nonspace; [done|].
  intros Hnil. rewrite Hnil in Hc. by apply elem_of_nil in Hc.
Qed.

Lemma whois_shape_py_or (a b : pyval) :
  whois_shape a = true -> whois_shape b = true -> whois_shape (py_or a b) = true.
Proof. unfold py_or. by destruct (truthy a). Qed.

(** The examples of the specification. *)
Example get_primary_whois_value_acme_list :
  get_primary_whois_value (VList [VStr (py ""); VStr (py "  "); VStr (py "Acme Inc.")])
  = py "Acme Inc.".
Proof. reflexivity. Qed.

Example get_primary_whois_value_None : get_primary_whois_value VNone = py "Not Found".
Proof. reflexivity. Qed.

Example get_primary_whois_value_acme_str :
  get_primary_whois_value (VStr (py "  Acme  ")) = py "Acme".
Proof. reflexivity. Qed.

(** Entries that are not strings are passed over. *)
Example get_primary_whois_value_mixed_list :
  get_primary_whois_value (VList [VNone; VOther true (py "2024"); VStr (py "Acme")])
  = py "Acme".
Proof. reflexivity. Qed.

(** ** Effects *)

Lemma bind_Return {A B} (m : M A) (k : A -> M B) (st st' : state) (b : B) :
  bind m k st = (Return b, st') ->
  ∃ a st1, m st = (Return a, st1) ∧ k a st1 = (Return b, st').
Proof.
  unfold bind. destruct (m st) as [[a|e] st1]; [|intros; simplify_eq]. intros Hk. by exists a, st1.
Qed.

Lemma bind_Raise {A B} (m : M A) (k : A -> M B) (st st' : state) (e : exc) :
  bind m k st = (Raise e, st') ->
  m st = (Raise e, st') ∨ ∃ a st1, m st = (Return a, st1) ∧ k a st1 = (Raise e, st').
Proof.
  unfold bind. destruct (m st) as [[a|e0] st1]; [|intros ?; simplify_eq; by left]. intros Hk. right. by exists a, st1.
Qed.

Lemma try_except_Return {A} (body : M A) clauses (st st' : state) (a : A) :
  try_except body clauses st = (Return a, st') ->
  body st = (Return a, st')
  ∨ ∃ e st1, body st = (Raise e, st1) ∧ handle clauses e st1 = (Return a, st').
Proof.
  unfold try_except. destruct (body st) as [[a0|e] st1]; [by left|].
  intros Hh. right. by exists e, st1.
Qed.

Lemma try_except_Raise {A} (body : M A) clauses (st st' : state) (e : exc) :
  try_except body clauses st = (Raise e, st') ->
  ∃ e0 st1, body st = (Raise e0, st1) ∧ handle clauses e0 st1 = (Raise e, st').
Proof.
  unfold try_except. destruct (body st) as [[a0|e0] st1]; [intros; simplify_eq|].
  intros Hh. by exists e0, st1.
Qed.

(** ** WHOIS client *)

Section whois_client.
Context (E : env) (domain : pystr) (st : state).

Lemma get_whois_info_success (w : whois_entry) :
  whois_whois E (clock st) domain = Return w ->
  get_whois_info E domain st = (Return (Some w), tick st).
Proof.
  intros Hw. unfold get_whois_info, try_except_lookup, bind, call, ret. by rewrite Hw.
Qed.

(** When [whois.exceptions] has no [UnknownTld], the first clause cannot
    be evaluated: whatever the query raised, what leaves the function is
    the [AttributeError], and nothing is printed. *)
Lemma get_whois_info_no_UnknownTld (e : exc) :
  whois_exceptions E UnknownTld = false ->
  whois_whois E (clock st) domain = Raise e ->
  get_whois_info E domain st = (Raise (no_attribute UnknownTld), tick st).
Proof.
  intros Hdef Hw. unfold get_whois_info, try_except_lookup, bind, call, ret.
  rewrite Hw. simpl. by rewrite Hdef.
Qed.

(** Were the three names defined, every [Exception] would be turned
    into [None] and one warning. *)
Lemma get_whois_info_handlers (e : exc) :
  whois_exceptions E UnknownTld = true ->
  whois_exceptions E WhoisCommandFailed = true ->
  whois_exceptions E PywhoisError = true ->
  whois_whois E (clock st) domain = Raise e ->
  exc_isinstance e Exception = true ->
  ∃ warning,
    get_whois_info E domain st
    = (Return None, {| clock := S (clock st); stdout := stdout st ++ [warning] |}).
Proof.
  intros H1 H2 H3 Hw He. unfold get_whois_info, try_except_lookup, bind, call, ret.
  rewrite Hw. simpl. rewrite H1, H2, H3, He. simpl.
  destruct (exc_isinstance e UnknownTld); [by eexists|].
  destruct (exc_isinstance e WhoisCommandFailed); [by eexists|].
  destruct (exc_isinstance e PywhoisError); [by eexists|].
  destruct (exc_isinstance e socket_timeout); by eexists.
Qed.

(** What [get_whois_info] lets through: an exception that is not an
    [Exception], or the [AttributeError] of a name that
    [whois.exceptions] lacks. *)
Lemma get_whois_info_Raise (e : exc) (st' : state) :
  get_whois_info E domain st = (Raise e, st') ->
  exc_isinstance e Exception = false
  ∨ ∃ c, whois_exceptions E c = false ∧ e = no_attribute c.
Proof.
  unfold get_whois_info, try_except_lookup, bind, call, ret, print.
  destruct (whois_whois E (clock st) domain) as [w|e0]; [done|]. simpl.
  destruct (whois_exceptions E UnknownTld) eqn:H1; simpl;
    [|intros [= <- _]; right; by exists UnknownTld].
  destruct (exc_isinstance e0 UnknownTld); simpl; [done|].
  destruct (whois_exceptions E WhoisCommandFailed) eqn:H2; simpl;
    [|intros [= <- _]; right; by exists WhoisCommandFailed].
  destruct (exc_isinstance e0 WhoisCommandFailed); simpl; [done|].
  destruct (whois_exceptions E PywhoisError) eqn:H3; simpl;
    [|intros [= <- _]; right; by exists PywhoisError].
  destruct (exc_isinstance e0 PywhoisError); simpl; [done|].
  destruct (exc_isinstance e0 socket_timeout); simpl; [done|].
  destruct (exc_isinstance e0 Exception) eqn:He; simpl; [done|].
  intros [= <- _]. by left.
Qed.

Lemma get_whois_info_Some (w : whois_entry) (st' : state) :
  get_whois_info E domain st = (Return (Some w), st') ->
  whois_whois E (clock st) domain = Return w ∧ st' = tick st.
Proof.
  unfold get_whois_info, try_except_lookup, bind, call, ret, print.
  destruct (whois_whois E (clock st) domain) as [w0|e]; simpl.
  - by intros [= -> <-].
  - by repeat case_match; intros; simplify_eq.
Qed.

(** [None] is returned only by a handler, and a handler is reached only
    when [whois.exceptions] has [UnknownTld]. *)
Lemma get_whois_info_None (st' : state) :
  get_whois_info E domain st = (Return None, st') ->
  whois_exceptions E UnknownTld = true
  ∧ ∃ e, whois_whois E (clock st) domain = Raise e.
Proof.
  unfold get_whois_info, try_except_lookup, bind, call, ret, print.
  destruct (whois_whois E (clock st) domain) as [w0|e]; simpl; [done|].
  destruct (whois_exceptions E UnknownTld); [|done]. intros _. split; [done|by exists e].
Qed.
End whois_client.

(** ** DNS client *)

Lemma no_records_found_truthy (record_type : pystr) :
  str_truthy (no_records_found record_type) = true.
Proof.
  done.
Qed.

Lemma cname_probe_Return (E : env) (domain record_type : pystr)
    (st st' : state) (error_msg : option pystr) :
  cname_probe E domain record_type st = (Return error_msg, st') ->
  ∃ m, error_msg = Some m ∧ str_truthy m = true.
Proof.
  unfold cname_probe, try_except, bind, call, ret, lift.
  destruct (resolver_resolve E (clock st) domain (py "CNAME") true) as [[[[|r rs]|]]|e];
    cbn [rrset].
  - intros [= <- _]. eexists. split; [done|apply no_records_found_truthy].
  - destruct (to_text r) as [text|e].
    + intros [= <- _]. by eexists.
    + cbn [handle]. case_match; [|intros; simplify_eq].
      intros [= <- _]. eexists. split; [done|apply no_records_found_truthy].
  - intros [= <- _]. eexists. split; [done|apply no_records_found_truthy].
  - cbn [handle]. case_match; [|intros; simplify_eq].
    intros [= <- _]. eexists. split; [done|apply no_records_found_truthy].
Qed.

(** The loop only appends stripped texts, and when it ends without an
    exception it falls through with the records and no message. *)
Lemma for_rdata_in_answer_ok (rdatas : list rdata) (records : list pystr) :
  Forall no_trailing_dot records ->
  Forall no_trailing_dot (for_rdata_in_answer rdatas records).2
  ∧ match (for_rdata_in_answer rdatas records).1 with
    | Return exit => exit = Fell_through (for_rdata_in_answer rdatas records).2 None
    | Raise e => ∃ r, r ∈ rdatas ∧ to_text r = Raise e
    end.
Proof.
  revert records. induction rdatas as [|r rest IH]; intros records Hrecords; simpl.
  - done.
  - destruct (to_text r) as [text|e] eqn:Hr; simpl.
    + destruct (IH (records ++ [rstrip (py ".") text])) as [Hdots Hexit].
      { apply Forall_app. split; [done|]. apply Forall_singleton, rstrip_dot_last. }
      split; [done|].
      destruct (for_rdata_in_answer rest (records ++ [rstrip (py ".") text])) as [[x|e] recs];
        simpl in *; [done|].
      destruct Hexit as (r' & Hin & Hr'). exists r'. split; [by right|done].
    + split; [done|]. exists r. split; [left|done].
Qed.

(** When every record renders, the loop yields their stripped texts in
    order. *)
Lemma for_rdata_in_answer_renders (rdatas : list rdata) (texts records : list pystr) :
  Forall2 (fun r text => to_text r = Return text) rdatas texts ->
  for_rdata_in_answer rdatas records
  = (Return (Fell_through (records ++ map (rstrip (py ".")) texts) None),
     records ++ map (rstrip (py ".")) texts).
Proof.
  intros Hall. revert records.
  induction Hall as [|r text rdatas texts Hr _ IH]; intros records; simpl.
  - by rewrite app_nil_r.
  - rewrite Hr, IH. by rewrite <-app_assoc.
Qed.

Lemma dns_query_ok (E : env) (domain record_type : pystr) (st st' : state)
    (r : result try_exit) (records : list pystr) :
  dns_query E domain record_type st = ((r, records), st') ->
  Forall no_trailing_dot records
  ∧ match r with
    | Return exit => exit_ok exit
    | Raise _ => True
    end.
Proof.
  unfold dns_query, bind, call, ret.
  destruct (dns_resolver_Resolver E (clock st)) as [[]|e]; [|by intros [= <- <- _]].
  destruct (resolver_resolve E (clock (tick st)) domain record_type false) as [a|e];
    [|by intros [= <- <- _]].
  destruct (rrset a) as [rdatas|].
  - destruct (for_rdata_in_answer_ok rdatas []) as [Hdots Hexit]; [done|].
    destruct (for_rdata_in_answer rdatas []) as [r0 recs]. intros [= <- <- _].
    split; [done|]. destruct r0 as [exit|e]; [|done]. simpl in Hexit. subst exit.
    split; [done|by left].
  - case_bool_decide.
    + destruct (cname_probe E domain record_type (tick (tick st))) as [[m|e] st1] eqn:Hp;
        intros [= <- <- _]; [|done].
      split; [done|]. split; [done|]. by eapply cname_probe_Return.
    + intros [= <- <- _]. split; [done|]. split; [done|].
      eexists. split; [done|apply no_records_found_truthy].
Qed.

(** A handler leaves [records] as it is, sets a non-empty message, and
    touches nothing else. *)
Lemma dns_handlers_Return (domain record_type : pystr) (records : list pystr) (e : exc)
    (st st' : state) (exit : try_exit) :
  handle (dns_handlers domain record_type records) e st = (Return exit, st') ->
  st' = st ∧ ∃ m, exit = Fell_through records (Some m) ∧ str_truthy m = true.
Proof.
  unfold dns_handlers. cbn [handle]. unfold ret.
  repeat case_match; intros; simplify_eq; (split; [done|by eexists]).
Qed.

Lemma dns_handlers_Raise (domain record_type : pystr) (records : list pystr) (e e' : exc)
    (st st' : state) :
  handle (dns_handlers domain record_type records) e st = (Raise e', st') ->
  st' = st ∧ e' = e ∧ exc_isinstance e Exception = false.
Proof.
  unfold dns_handlers. cbn [handle]. unfold ret.
  repeat case_match; intros; simplify_eq.
  match goal with H : existsb _ [Exception] = false |- _ => simpl in H end.
  by destruct (exc_isinstance e' Exception).
Qed.

(** Every exception that is an [Exception] finds a handler. *)
Lemma dns_handlers_Exception (domain record_type : pystr) (records : list pystr) (e : exc)
    (st : state) :
  exc_isinstance e Exception = true ->
  ∃ m, handle (dns_handlers domain record_type records) e st
       = (Return (Fell_through records (Some m)), st)
    ∧ m ≠ [].
Proof.
  intros He. unfold dns_handlers. cbn [handle existsb]. rewrite He. unfold ret.
  destruct (exc_isinstance e NXDOMAIN); [by eexists|].
  destruct (exc_isinstance e NoAnswer); [by eexists|].
  destruct (exc_isinstance e NoNameservers); [by eexists|].
  destruct (exc_isinstance e Timeout); by eexists.
Qed.

Lemma dns_finish_ok (record_type : pystr) (records : list pystr)
    (error_msg : option pystr) :
  error_msg = None ∨ (∃ m, error_msg = Some m ∧ str_truthy m = true) ->
  (dns_finish record_type records error_msg).1 = records
  ∧ ((dns_finish record_type records error_msg).2 = error_msg
     ∨ records = [] ∧ error_msg = None)
  ∧ ((dns_finish record_type records error_msg).2 = None
     ∨ ∃ m, (dns_finish record_type records error_msg).2 = Some m ∧ str_truthy m = true)
  ∧ (records = [] ->
     ∃ m, (dns_finish record_type records error_msg).2 = Some m ∧ str_truthy m = true).
Proof.
  unfold dns_finish.
  intros [->|(m & -> & Hm)]; simpl.
  - destruct records; simpl.
    + split; [done|]. split; [by right|]. split; [right; by eexists|]. intros _. by eexists.
    + split; [done|]. split; [by left|]. split; [by left|done].
  - rewrite Hm. simpl. rewrite andb_false_r.
    split; [done|]. split; [by left|]. split; [right; by exists m|]. intros _. by exists m.
Qed.

(** Taking a DNS query apart: no returned record ends with a dot, a
    returned message is not empty, and an empty record list always comes
    with a message. *)
Lemma get_dns_records_Return (E : env) (domain record_type : pystr)
    (st st' : state) (records : list pystr) (error_msg : option pystr) :
  get_dns_records E domain record_type st = (Return (records, error_msg), st') ->
  Forall no_trailing_dot records
  ∧ (error_msg = None ∨ ∃ m, error_msg = Some m ∧ str_truthy m = true)
  ∧ (records = [] -> ∃ m, error_msg = Some m ∧ str_truthy m = true).
Proof.
  intros (exit & st1 & Htry & Hfin)%bind_Return.
  assert (exit_ok exit) as Hok.
  { revert Htry. unfold try_except_records.
    destruct (dns_query E domain record_type st) as [[[x|e] recs] st0] eqn:Hq;
      apply dns_query_ok in Hq as [Hdots Hx].
    - by intros [= <- _].
    - intros (_ & m & -> & Hm)%dns_handlers_Return. split; [done|right; by exists m]. }
  destruct exit as [[recs msg]|recs msg].
  - injection Hfin as <- <- _. destruct Hok as [-> Hm]. split; [done|]. split; [by right|done].
  - destruct Hok as [Hrecs Hmsg].
    destruct (dns_finish_ok record_type recs msg Hmsg) as (H1 & _ & H2 & H3).
    assert (dns_finish record_type recs msg = (records, error_msg)) as Hf
      by (unfold ret in Hfin; congruence).
    rewrite Hf in H1, H2, H3. simpl in *. by subst recs.
Qed.

(** The fallback of line 83 is what a result set without records
    yields. *)
Example get_dns_records_fallback :
  (get_dns_records E_blank example_org (py "NS") init).1
  = Return ([], Some (py "No NS records found (or query failed silently).")).
Proof. reflexivity. Qed.

(** A DNS query lets through only what is not an [Exception]. *)
Lemma get_dns_records_Raise (E : env) (domain record_type : pystr)
    (st st' : state) (e : exc) :
  get_dns_records E domain record_type st = (Raise e, st') ->
  exc_isinstance e Exception = false.
Proof.
  intros [Htry|(exit & st1 & _ & Hfin)]%bind_Raise.
  - revert Htry. unfold try_except_records.
    destruct (dns_query E domain record_type st) as [[[x|e0] recs] st0]; [done|].
    by intros (_ & -> & He)%dns_handlers_Raise.
  - by destruct exit as [[??]|??].
Qed.

Lemma cname_probe_found (E : env) (domain record_type : pystr) (st : state)
    (r : rdata) (rs : list rdata) (text : pystr) :
  resolver_resolve E (clock st) domain (py "CNAME") true
    = Return {| rrset := Some (r :: rs) |} ->
  to_text r = Return text ->
  cname_probe E domain record_type st
  = (Return (Some (py "No direct " ++ record_type ++ py " records found, but found CNAME: "
                   ++ rstrip (py ".") text)), tick st).
Proof.
  intros Hc Hr. unfold cname_probe, try_except, bind, call, ret, lift.
  rewrite Hc. cbn [rrset]. by rewrite Hr.
Qed.

Lemma cname_probe_absent (E : env) (domain record_type : pystr) (st : state) :
  cname_absent (resolver_resolve E (clock st) domain (py "CNAME") true) ->
  cname_probe E domain record_type st
  = (Return (Some (no_records_found record_type)), tick st).
Proof.
  unfold cname_probe, try_except, bind, call, ret.
  destruct (resolver_resolve E (clock st) domain (py "CNAME") true) as [[rr]|e]; simpl.
  - by intros [->| ->].
  - intros [-> | ->]; [done|]. by rewrite orb_true_r.
Qed.

(** An NS query without a result set returns what the CNAME probe says. *)
Lemma get_dns_records_NS_no_rrset (E : env) (domain : pystr) (st : state) (a : answer) :
  dns_resolver_Resolver E (clock st) = Return tt ->
  resolver_resolve E (S (clock st)) domain (py "NS") false = Return a ->
  rrset a = None ->
  get_dns_records E domain (py "NS") st
  = match cname_probe E domain (py "NS") (tick (tick st)) with
    | (Return error_msg, st') => (Return ([], error_msg), st')
    | (Raise e, st') =>
        match handle (dns_handlers domain (py "NS") []) e st' with
        | (Return (Returned value), st2) => (Return value, st2)
        | (Return (Fell_through records error_msg), st2) =>
            (Return (dns_finish (py "NS") records error_msg), st2)
        | (Raise e', st2) => (Raise e', st2)
        end
    end.
Proof.
  intros HR Ha Hrr.
  unfold get_dns_records, try_except_records, dns_query, bind, call, ret.
  rewrite HR. cbn [tick clock]. rewrite Ha, Hrr.
  rewrite bool_decide_eq_true_2 by done.
  destruct (cname_probe E domain (py "NS") (tick (tick st))) as [[m|e] st']; [done|].
  by destruct (handle (dns_handlers domain (py "NS") []) e st') as [[[?|??]|?] ?].
Qed.

(** A query answered with a result set runs the loop, after two calls. *)
Lemma get_dns_records_answered (E : env) (domain record_type : pystr) (st : state)
    (a : answer) (rdatas : list rdata) :
  dns_resolver_Resolver E (clock st) = Return tt ->
  resolver_resolve E (S (clock st)) domain record_type false = Return a ->
  rrset a = Some rdatas ->
  get_dns_records E domain record_type st
  = match for_rdata_in_answer rdatas [] with
    | (Return _, records) => (Return (dns_finish record_type records None), tick (tick st))
    | (Raise e, records) =>
        match handle (dns_handlers domain record_type records) e (tick (tick st)) with
        | (Return (Returned value), st2) => (Return value, st2)
        | (Return (Fell_through records' error_msg), st2) =>
            (Return (dns_finish record_type records' error_msg), st2)
        | (Raise e', st2) => (Raise e', st2)
        end
    end.
Proof.
  intros HR Ha Hrr.
  unfold get_dns_records, try_except_records, dns_query, bind, call, ret.
  rewrite HR. cbn [tick clock]. rewrite Ha, Hrr.
  destruct (for_rdata_in_answer_ok rdatas []) as [_ Hexit]; [done|].
  destruct (for_rdata_in_answer rdatas []) as [[exit|e] records]; simpl in Hexit.
  - by subst exit.
  - by destruct (handle (dns_handlers domain record_type records) e (tick (tick st)))
      as [[[?|??]|?] ?].
Qed.

(** A DNS query that returns records was answered with a result set,
    after exactly two calls: the resolver and the query itself. *)
Lemma get_dns_records_nonempty (E : env) (domain record_type : pystr)
    (st st' : state) (first : pystr) (rest : list pystr) (error_msg : option pystr) :
  get_dns_records E domain record_type st = (Return (first :: rest, error_msg), st') ->
  st' = tick (tick st)
  ∧ dns_resolver_Resolver E (clock st) = Return tt
  ∧ ∃ a rdatas, resolver_resolve E (S (clock st)) domain record_type false = Return a
      ∧ rrset a = Some rdatas.
Proof.
  destruct (dns_resolver_Resolver E (clock st)) as [[]|e] eqn:HR.
  2:{ unfold get_dns_records, try_except_records, dns_query, bind, call, ret. rewrite HR.
      destruct (handle (dns_handlers domain record_type []) e (tick st)) as [[exit|e'] st1]
        eqn:Hh; [|done].
      apply dns_handlers_Return in Hh as (_ & m & -> & _). by intros [= ]. }
  destruct (resolver_resolve E (S (clock st)) domain record_type false) as [a|e] eqn:Ha.
  2:{ unfold get_dns_records, try_except_records, dns_query, bind, call, ret. rewrite HR.
      cbn [tick clock]. rewrite Ha.
      destruct (handle (dns_handlers domain record_type []) e (tick (tick st)))
        as [[exit|e'] st1] eqn:Hh; [|done].
      apply dns_handlers_Return in Hh as (_ & m & -> & _). by intros [= ]. }
  destruct (rrset a) as [rdatas|] eqn:Hrr.
  - rewrite (get_dns_records_answered E domain record_type st a rdatas HR Ha Hrr).
    intros Hrun. split; [|split; [done|by exists a, rdatas]].
    destruct (for_rdata_in_answer rdatas []) as [[exit|e] records]; [by injection Hrun|].
    destruct (handle (dns_handlers domain record_type records) e (tick (tick st)))
      as [[exit|e'] st1] eqn:Hh; [|done].
    apply dns_handlers_Return in Hh as (-> & m & -> & _). by injection Hrun.
  - unfold get_dns_records, try_except_records, dns_query, bind, call, ret. rewrite HR.
    cbn [tick clock]. rewrite Ha, Hrr.
    destruct (if bool_decide (record_type = py "NS")
              then cname_probe E domain record_type
              else (fun st0 => (Return (Some (no_records_found record_type)), st0)))
      as [[m|e] st1]; [by intros [= ]|].
    destruct (handle (dns_handlers domain record_type []) e st1) as [[exit|e'] st2]
      eqn:Hh; [|done].
    apply dns_handlers_Return in Hh as (_ & m & -> & _). by intros [= ].
Qed.

(** ** Domain extractor *)

Lemma get_registrable_domain_Return (E : env) (fqdn : pystr) (st st' : state)
    (owner : pystr) :
  get_registrable_domain E fqdn st = (Return (Some owner), st') ->
  str_truthy owner = true.
Proof.
  unfold get_registrable_domain. destruct (str_truthy fqdn); simpl; [|done].
  unfold try_except, bind, call, ret, print.
  destruct (tldextract_extract E (clock st) fqdn) as [reg|e]; simpl.
  - destruct (str_truthy reg) eqn:Hreg; [|done]. by intros [= <- _].
  - by repeat case_match; intros; simplify_eq.
Qed.

Lemma get_registrable_domain_empty (E : env) (st : state) :
  get_registrable_domain E [] st = (Return None, st).
Proof. done. Qed.

Lemma get_registrable_domain_Raise (E : env) (fqdn : pystr) (st st' : state) (e : exc) :
  get_registrable_domain E fqdn st = (Raise e, st') ->
  exc_isinstance e Exception = false.
Proof.
  unfold get_registrable_domain. destruct (str_truthy fqdn); simpl; [|done].
  unfold try_except, bind, call, ret, print.
  destruct (tldextract_extract E (clock st) fqdn) as [reg|e0]; simpl.
  - by repeat case_match; intros; simplify_eq.
  - destruct (exc_isinstance e0 Exception) eqn:He; simpl; [done|]. by intros [= <- _].
Qed.

(** ** Orchestrator *)

Lemma dict_truthy_nonempty (w : whois_entry) : dict_truthy w = true <-> w ≠ ∅.
Proof.
  unfold dict_truthy. rewrite negb_true_iff, Nat.eqb_neq.
  by rewrite <-(map_size_empty_iff w).
Qed.

Lemma select_first_nameserver_Return (nameservers : list pystr)
    (ns_error_msg first_nameserver : option pystr) (st st' : state) :
  select_first_nameserver nameservers ns_error_msg st = (Return first_nameserver, st') ->
  first_nameserver
  = match ns_error_msg with
    | Some m => if str_truthy m then None else head nameservers
    | None => head nameservers
    end.
Proof.
  unfold select_first_nameserver, bind, print, ret.
  destruct ns_error_msg as [m|]; [destruct (str_truthy m)|];
    destruct nameservers; simpl; by intros [= <- _].
Qed.

(** Taking the inference step apart. *)
Lemma infer_hosting_provider_Return (E : env) (first_nameserver : option pystr)
    (st st' : state) (od : option pystr) (dw : option whois_entry) (info : pystr) :
  infer_hosting_provider E first_nameserver st = (Return (od, dw, info), st') ->
  match first_nameserver with
  | Some ((_ :: _) as ns) =>
      ∃ st1, get_registrable_domain E ns st = (Return od, st1)
        ∧ match od with
          | Some owner =>
              get_whois_info E owner st1 = (Return dw, st')
              ∧ info = match dw with
                       | Some w =>
                           if dict_truthy w then registrar_or_owner_org w
                           else lookup_failed owner
                       | None => lookup_failed owner
                       end
          | None => dw = None ∧ info = no_owner_domain ns
          end
  | _ => od = None ∧ dw = None ∧ info = Skipped
  end.
Proof.
  unfold infer_hosting_provider.
  destruct first_nameserver as [[|c ns]|]; cbn [str_truthy];
    try by intros [= <- <- <- _].
  intros (od' & st1 & Hod & Hrest)%bind_Return. exists st1.
  destruct od' as [owner|].
  - rewrite (get_registrable_domain_Return _ _ _ _ _ Hod) in Hrest.
    apply bind_Return in Hrest as (dw' & st2 & Hdw & Hrest).
    destruct dw' as [w|]; [destruct (dict_truthy w) eqn:Hw|];
      injection Hrest as <- <- <- <-; rewrite ?Hw; done.
  - by injection Hrest as <- <- <- <-.
Qed.

(** What the inference step lets through. *)
Lemma infer_hosting_provider_Raise (E : env) (first_nameserver : option pystr)
    (st st' : state) (e : exc) :
  infer_hosting_provider E first_nameserver st = (Raise e, st') ->
  exc_isinstance e Exception = false
  ∨ ∃ c, whois_exceptions E c = false ∧ e = no_attribute c.
Proof.
  unfold infer_hosting_provider.
  destruct first_nameserver as [[|c ns]|]; cbn [str_truthy]; try done.
  intros [Hod|(od & st1 & Hod & Hrest)]%bind_Raise;
    [left; by eapply get_registrable_domain_Raise|].
  destruct od as [owner|]; [|done].
  destruct (str_truthy owner); [|done].
  apply bind_Raise in Hrest as [Hw|(dw & st2 & _ & Hrest)];
    [by eapply get_whois_info_Raise|].
  by destruct dw as [w|]; [destruct (dict_truthy w)|].
Qed.

(** Taking a run of [main] apart: the local variables it ends with are
    the results of the lookups, made in this order. *)
Lemma main_Return (E : env) (args_domain : pystr) (st st' : state) (L : locals) :
  main E args_domain st = (Return L, st') ->
  ∃ st1 st2 st3 st4 st5 st6,
    domain_to_check L = strip (str_lower E args_domain)
    ∧ get_whois_info E (domain_to_check L) st1 = (Return (domain_whois L), st2)
    ∧ registrant_registrar (domain_whois L) = (registrant L, registrar L)
    ∧ get_dns_records E (domain_to_check L) (py "NS") st3
      = (Return (nameservers L, ns_error_msg L), st4)
    ∧ select_first_nameserver (nameservers L) (ns_error_msg L) st4
      = (Return (first_nameserver L), st5)
    ∧ infer_hosting_provider E (first_nameserver L) st5
      = (Return (ns_owner_domain L, ns_domain_whois L, ns_registrar_info L), st6).
Proof.
  unfold main.
  intros (_ & st1 & _ & (dw & st2 & Hdw & Hrest)%bind_Return)%bind_Return.
  destruct (registrant_registrar dw) as [rg rr] eqn:Hrr.
  apply bind_Return in Hrest as (_ & st2a & _ & (_ & st3 & _ & Hrest)%bind_Return).
  apply bind_Return in Hrest as ([ns err] & st4 & Hns & Hrest).
  apply bind_Return in Hrest as (fn & st5 & Hfn & Hrest).
  apply bind_Return in Hrest as ([[od ndw] info] & st6 & Hinf & Hrest).
  apply bind_Return in Hrest as (_ & st7 & _ & (_ & st8 & _ & Hrest)%bind_Return).
  injection Hrest as <- _. simpl.
  by exists st1, st2, st3, st4, st5, st6.
Qed.

(** What [main] lets through: an exception that is not an [Exception],
    or the [AttributeError] of a name that [whois.exceptions] lacks. *)
Lemma main_Raise (E : env) (args_domain : pystr) (st st' : state) (e : exc) :
  main E args_domain st = (Raise e, st') ->
  exc_isinstance e Exception = false
  ∨ ∃ c, whois_exceptions E c = false ∧ e = no_attribute c.
Proof.
  unfold main.
  intros [?|(_ & st1 & _ & H)]%bind_Raise; [done|].
  apply bind_Raise in H as [?|(dw & st2 & _ & H)]; [by eapply get_whois_info_Raise|].
  destruct (registrant_registrar dw) as [rg rr].
  apply bind_Raise in H as [?|(_ & ? & _ & H)]; [done|].
  apply bind_Raise in H as [?|(_ & ? & _ & H)]; [done|].
  apply bind_Raise in H as [?|([ns err] & ? & _ & H)];
    [left; by eapply get_dns_records_Raise|].
  apply bind_Raise in H as [H|(fn & ? & _ & H)].
  { revert H. unfold select_first_nameserver, bind, print, ret.
    by repeat case_match; intros; simplify_eq. }
  apply bind_Raise in H as [?|([[od ndw] info] & ? & _ & H)];
    [by eapply infer_hosting_provider_Raise|].
  apply bind_Raise in H as [?|(_ & ? & _ & H)]; [done|].
  by apply bind_Raise in H as [?|(_ & ? & _ & H)].
Qed.

Lemma py_or_get_shape (w : whois_entry) (k1 k2 : pystr) :
  (∀ key, whois_shape (get w key) = true) ->
  whois_shape (py_or (get w k1) (get w k2)) = true.
Proof. intros Hw. by apply whois_shape_py_or. Qed.

Lemma registrant_registrar_nonempty (domain_whois : option whois_entry) :
  (∀ w, domain_whois = Some w -> ∀ key, whois_shape (get w key) = true) ->
  (registrant_registrar domain_whois).1 ≠ [] ∧ (registrant_registrar domain_whois).2 ≠ [].
Proof.
  intros Hshape. unfold registrant_registrar.
  destruct domain_whois as [w|]; [|done].
  destruct (dict_truthy w); [|done].
  specialize (Hshape w eq_refl). cbn [fst snd].
  pose proof (get_primary_whois_value_not_empty _ (py_or_get_shape w (py "name")
    (py "registrant_name") Hshape)).
  pose proof (get_primary_whois_value_not_empty _ (py_or_get_shape w (py "org")
    (py "registrant_organization") Hshape)).
  pose proof (get_primary_whois_value_not_empty _ (Hshape (py "registrar"))).
  split; repeat case_bool_decide; try done.
Qed.

Lemma registrar_or_owner_org_nonempty (w : whois_entry) :
  (∀ key, whois_shape (get w key) = true) -> registrar_or_owner_org w ≠ [].
Proof.
  intros Hshape. unfold registrar_or_owner_org.
  pose proof (get_primary_whois_value_not_empty _ (Hshape (py "registrar"))).
  by repeat case_bool_decide.
Qed.

Lemma registrar_or_owner_org_spec (w : whois_entry) :
  registrar_or_owner_org w = registrar_else_owner_org_spec w.
Proof.
  unfold registrar_or_owner_org, registrar_else_owner_org_spec.
  repeat case_bool_decide; congruence.
Qed.

(** * The claims *)

(** C1 (the code departs from the claim): from a list,
    [get_primary_whois_value] returns the chosen entry with its
    surrounding whitespace, where the bare-string branch trims it. *)
Theorem get_primary_whois_value_list_untrimmed :
  get_primary_whois_value (VList [VStr (py "  Acme  ")]) = py "  Acme  "
  ∧ get_primary_whois_value (VStr (py "  Acme  ")) = py "Acme"
  ∧ get_primary_whois_value (VList [VStr (py "  Acme  ")]) ≠ strip (py "  Acme  ").
Proof. by vm_compute. Qed.

(** C2 (the code departs from the claim): with python-whois, whose
    [whois.exceptions] has no [UnknownTld], a failing WHOIS query does
    not make [get_whois_info] return [None]: whatever the query raised,
    the first [except] clause raises [AttributeError], an [Exception],
    out of the function, and no warning is printed. *)
Theorem get_whois_info_raises_AttributeError (E : env) (domain : pystr) (st : state)
    (e : exc) :
  whois_exceptions E UnknownTld = false ->
  whois_whois E (clock st) domain = Raise e ->
  get_whois_info E domain st = (Raise (no_attribute UnknownTld), tick st)
  ∧ exc_isinstance (no_attribute UnknownTld) Exception = true.
Proof.
  intros Hdef Hw. split; [by eapply get_whois_info_no_UnknownTld|done].
Qed.

Lemma get_whois_info_raises_AttributeError_witness :
  get_whois_info E_no_match example_org init
  = (Raise (no_attribute UnknownTld), {| clock := 1; stdout := [] |})
  ∧ exc_isinstance (no_attribute UnknownTld) Exception = true.
Proof.
  apply (get_whois_info_raises_AttributeError E_no_match example_org init
           (mk_exc [PywhoisError; Exception] (py "No match for domain")));
    reflexivity.
Defined.

(** C3: when [get_dns_records] returns an empty record list, its error
    component is a non-empty string. *)
Theorem get_dns_records_empty_has_error (E : env) (domain record_type : pystr)
    (st st' : state) (records : list pystr) (error_msg : option pystr) :
  get_dns_records E domain record_type st = (Return (records, error_msg), st') ->
  records = [] ->
  ∃ m, error_msg = Some m ∧ m ≠ [].
Proof.
  intros (_ & _ & Hmsg)%get_dns_records_Return Hnil.
  destruct (Hmsg Hnil) as (m & -> & Hm%str_truthy_nonempty). by exists m.
Qed.

Lemma get_dns_records_empty_has_error_witness :
  ∃ error_msg st',
    get_dns_records E_offline example_org (py "NS") init = (Return ([], error_msg), st')
    ∧ ∃ m, error_msg = Some m ∧ m ≠ [].
Proof.
  eexists _, _. split; [vm_compute; reflexivity|].
  eapply (get_dns_records_empty_has_error E_offline example_org (py "NS") init);
    [vm_compute; reflexivity|reflexivity].
Defined.

(** C4: an NS query without a result set returns no records and, when
    the CNAME probe finds a record, a message ending with the CNAME
    target, the text of that record without its trailing dots; when the
    probe finds none, the plain message. *)
Theorem get_dns_records_NS_cname_fallback (E : env) (domain : pystr) (st : state)
    (a : answer) :
  dns_resolver_Resolver E (clock st) = Return tt ->
  resolver_resolve E (S (clock st)) domain (py "NS") false = Return a ->
  rrset a = None ->
  let probe := resolver_resolve E (S (S (clock st))) domain (py "CNAME") true in
  (∀ r rs text, probe = Return {| rrset := Some (r :: rs) |} ->
     to_text r = Return text ->
     let cname_target := rstrip (py ".") text in
     (get_dns_records E domain (py "NS") st).1
     = Return ([], Some (py "No direct NS records found, but found CNAME: "
                         ++ cname_target)))
  ∧ (cname_absent probe ->
     (get_dns_records E domain (py "NS") st).1
     = Return ([], Some (py "No NS records found."))).
Proof.
  intros HR Ha Hrr probe. rewrite (get_dns_records_NS_no_rrset E domain st a HR Ha Hrr).
  split.
  - intros r rs text Hp Hr.
    by rewrite (cname_probe_found E domain (py "NS") (tick (tick st)) r rs text Hp Hr).
  - intros Hp. by rewrite (cname_probe_absent E domain (py "NS") (tick (tick st)) Hp).
Qed.

Lemma get_dns_records_NS_cname_fallback_witness :
  (get_dns_records E_cname example_org (py "NS") init).1
  = Return ([], Some (py "No direct NS records found, but found CNAME: www.acme.net"))
  ∧ (get_dns_records E_no_cname example_org (py "NS") init).1
    = Return ([], Some (py "No NS records found.")).
Proof.
  split.
  - apply (proj1 (get_dns_records_NS_cname_fallback E_cname example_org init
                    {| rrset := None |} eq_refl eq_refl eq_refl)
             {| to_text := Return (py "www.acme.net.") |} [] (py "www.acme.net."));
      reflexivity.
  - apply (proj2 (get_dns_records_NS_cname_fallback E_no_cname example_org init
                    {| rrset := None |} eq_refl eq_refl eq_refl)).
    left. reflexivity.
Defined.

(** C5: no record string returned by [get_dns_records] ends with a
    dot. *)
Theorem get_dns_records_no_trailing_dot (E : env) (domain record_type : pystr)
    (st st' : state) (records : list pystr) (error_msg : option pystr) :
  get_dns_records E domain record_type st = (Return (records, error_msg), st') ->
  ∀ record, record ∈ records -> last record ≠ Some 46.
Proof.
  intros [Hdots _]%get_dns_records_Return record Hin.
  by apply (proj1 (Forall_forall _ _) Hdots record).
Qed.

Lemma get_dns_records_no_trailing_dot_witness :
  ∃ error_msg st',
    get_dns_records E_acme example_org (py "NS") init
    = (Return ([py "ns1.acme.net"; py "ns2.acme.net"], error_msg), st')
    ∧ last (py "ns1.acme.net") ≠ Some 46.
Proof.
  eexists _, _. split; [vm_compute; reflexivity|].
  eapply (get_dns_records_no_trailing_dot E_acme example_org (py "NS") init);
    [vm_compute; reflexivity|left].
Defined.

(** Lines 171-173: were the WHOIS lookup of the primary domain to return
    [None], the registrant and the registrar would both be "WHOIS Lookup
    Failed". *)
Lemma main_whois_failed_sentinel (E : env) (args_domain : pystr) (st st' : state)
    (L : locals) :
  main E args_domain st = (Return L, st') ->
  domain_whois L = None ->
  registrant L = py "WHOIS Lookup Failed" ∧ registrar L = py "WHOIS Lookup Failed".
Proof.
  intros (st1 & st2 & st3 & st4 & st5 & st6 & _ & _ & Hrr & _)%main_Return Hnone.
  rewrite Hnone in Hrr. by injection Hrr as <- <-.
Qed.

(** C6 (the code departs from the claim): with python-whois, when the
    WHOIS query for the primary domain fails, [main] does not set the
    registrant and the registrar to "WHOIS Lookup Failed": it ends with
    the [AttributeError] that [get_whois_info] raises, having printed
    only the banner. *)
Theorem main_whois_failure_raises (E : env) (args_domain : pystr) (st : state) (e : exc) :
  whois_exceptions E UnknownTld = false ->
  whois_whois E (clock st) (strip (str_lower E args_domain)) = Raise e ->
  main E args_domain st
  = (Raise (no_attribute UnknownTld),
     {| clock := S (clock st);
        stdout := stdout st ++ [py "--- Checking Domain: "
                                ++ strip (str_lower E args_domain) ++ py " ---" ++ [10]] |}).
Proof.
  intros Hdef Hw.
  pose proof (get_whois_info_no_UnknownTld E (strip (str_lower E args_domain))
                {| clock := clock st;
                   stdout := stdout st ++ [py "--- Checking Domain: "
                                           ++ strip (str_lower E args_domain)
                                           ++ py " ---" ++ [10]] |} e Hdef Hw) as Hraise.
  unfold main, bind, print. by rewrite Hraise.
Qed.

Lemma main_whois_failure_raises_witness :
  main E_no_match example_org init
  = (Raise (no_attribute UnknownTld),
     {| clock := 1; stdout := [py "--- Checking Domain: example.org ---" ++ [10]] |}).
Proof.
  apply (main_whois_failure_raises E_no_match example_org init
           (mk_exc [PywhoisError; Exception] (py "No match for domain")));
    reflexivity.
Defined.

(** C7 (as amended): when the NS lookup returned no error and a list
    whose first entry is a non-empty anchor nameserver, the inferred
    hosting provider is "Could not determine owner domain from
    '<nameserver>'." if the extraction returned nothing; else "WHOIS
    Lookup Failed for <owner domain>" if the WHOIS lookup of the owner
    domain returned [None] or a record without fields; else the registrar
    of that record, else "Owner Org: <org> (Registrar Not Found)", else
    "Not Found".  The extraction is the one made on the anchor, and the
    lookup the one made on the extracted owner domain. *)
Theorem main_hosting_provider (E : env) (args_domain : pystr) (st st' : state)
    (L : locals) (ns : pystr) (rest : list pystr) :
  main E args_domain st = (Return L, st') ->
  ns_error_msg L = None ->
  nameservers L = ns :: rest ->
  ns ≠ [] ->
  first_nameserver L = Some ns
  ∧ ns_registrar_info L
    = match ns_owner_domain L with
      | None => py "Could not determine owner domain from '" ++ ns ++ py "'."
      | Some owner =>
          match ns_domain_whois L with
          | None => py "WHOIS Lookup Failed for " ++ owner
          | Some w =>
              if decide (size w = 0%nat) then py "WHOIS Lookup Failed for " ++ owner
              else registrar_else_owner_org_spec w
          end
      end
  ∧ ∃ st5 st6,
      get_registrable_domain E ns st5 = (Return (ns_owner_domain L), st6)
      ∧ ∀ owner, ns_owner_domain L = Some owner ->
          ∃ st7, get_whois_info E owner st6 = (Return (ns_domain_whois L), st7).
Proof.
  intros Hmain Herr Hns Hne.
  pose proof Hmain as (st1 & st2 & st3 & st4 & st5 & st6 & _ & _ & _ & _ & Hfn & Hinf)%main_Return.
  apply select_first_nameserver_Return in Hfn. rewrite Herr, Hns in Hfn. simpl in Hfn.
  rewrite Hfn in Hinf. split; [done|].
  apply infer_hosting_provider_Return in Hinf. destruct ns as [|c ns]; [done|].
  destruct Hinf as (st7 & Hod & Hinf).
  destruct (ns_owner_domain L) as [owner|].
  - destruct Hinf as [Hdw ->]. split.
    + destruct (ns_domain_whois L) as [w|]; [|done].
      unfold dict_truthy. rewrite registrar_or_owner_org_spec.
      case_decide as Hsize; [by rewrite Hsize|].
      by apply Nat.eqb_neq in Hsize as ->.
    + exists st5, st7. split; [done|]. intros owner' [= <-]. by exists st6.
  - destruct Hinf as [_ ->]. split; [done|]. exists st5, st7. by split.
Qed.

Lemma main_hosting_provider_witness :
  ∃ L st', main E_acme example_org init = (Return L, st')
    ∧ first_nameserver L = Some (py "ns1.acme.net")
    ∧ ns_registrar_info L = py "Acme Registrar".
Proof.
  eexists _, _. split; [vm_compute; reflexivity|].
  match goal with
  | |- first_nameserver ?L = _ ∧ _ =>
      destruct (main_hosting_provider E_acme example_org init
                  {| clock := 5; stdout := stdout (main E_acme example_org init).2 |}
                  L (py "ns1.acme.net") [py "ns2.acme.net"])
        as (Hfn & Hinfo & _)
  end.
  - vm_compute; reflexivity.
  - reflexivity.
  - reflexivity.
  - discriminate.
  - split; [exact Hfn|]. rewrite Hinfo. vm_compute; reflexivity.
Defined.

(** C7 as stated fails at two inputs.  An NS record naming the root
    yields the anchor [""]: there is an anchor, its extraction yields
    nothing, and yet the field is "Skipped (No nameserver found).".  A
    WHOIS lookup of the owner domain that returns a record without fields
    has not failed, and yet the field is "WHOIS Lookup Failed for
    acme.net", not "Not Found". *)
Lemma main_hosting_provider_counterexample :
  (∃ L st', main E_root example_org init = (Return L, st')
     ∧ ns_error_msg L = None ∧ nameservers L = [ [] ]
     ∧ (get_registrable_domain E_root [] init).1 = Return None
     ∧ hosting_provider_spec [] (ns_owner_domain L) (ns_domain_whois L)
       = py "Could not determine owner domain from ''."
     ∧ ns_registrar_info L = py "Skipped (No nameserver found)."
     ∧ ns_registrar_info L
       ≠ hosting_provider_spec [] (ns_owner_domain L) (ns_domain_whois L))
  ∧ (∃ L st', main E_hollow example_org init = (Return L, st')
       ∧ ns_error_msg L = None ∧ nameservers L = [py "ns1.acme.net"]
       ∧ ns_owner_domain L = Some (py "acme.net") ∧ ns_domain_whois L = Some ∅
       ∧ hosting_provider_spec (py "ns1.acme.net") (ns_owner_domain L) (ns_domain_whois L)
         = py "Not Found"
       ∧ ns_registrar_info L = py "WHOIS Lookup Failed for acme.net"
       ∧ ns_registrar_info L
         ≠ hosting_provider_spec (py "ns1.acme.net") (ns_owner_domain L)
             (ns_domain_whois L)).
Proof.
  split; eexists _, _; (split; [vm_compute; reflexivity|]);
    repeat split; try (vm_compute; reflexivity); vm_compute; discriminate.
Qed.

(** C8: when the NS lookup returned an error or an empty record list,
    there is no anchor nameserver and the inferred hosting provider is
    "Skipped (No nameserver found).". *)
Theorem main_no_anchor_skipped (E : env) (args_domain : pystr) (st st' : state)
    (L : locals) :
  main E args_domain st = (Return L, st') ->
  ns_error_msg L ≠ None ∨ nameservers L = [] ->
  first_nameserver L = None
  ∧ ns_registrar_info L = py "Skipped (No nameserver found).".
Proof.
  intros (st1 & st2 & st3 & st4 & st5 & st6 & _ & _ & _ & Hdns & Hfn & Hinf)%main_Return
    Hno.
  apply get_dns_records_Return in Hdns as (_ & Hmsg & Hempty).
  apply select_first_nameserver_Return in Hfn.
  assert (first_nameserver L = None) as Hnone.
  { assert (∃ m, ns_error_msg L = Some m ∧ str_truthy m = true) as (m & Hm & Htruthy).
    { destruct Hno as [Hno|Hno]; [|by apply Hempty]. by destruct Hmsg. }
    by rewrite Hfn, Hm, Htruthy. }
  split; [done|]. rewrite Hnone in Hinf.
  by apply infer_hosting_provider_Return in Hinf as (_ & _ & ->).
Qed.

Lemma main_no_anchor_skipped_witness :
  ∃ L st', main E_no_cname example_org init = (Return L, st')
    ∧ ns_error_msg L = Some (py "No NS records found.")
    ∧ first_nameserver L = None
    ∧ ns_registrar_info L = py "Skipped (No nameserver found).".
Proof.
  eexists _, _. split; [vm_compute; reflexivity|]. split; [reflexivity|].
  eapply (main_no_anchor_skipped E_no_cname example_org init);
    [vm_compute; reflexivity|left; discriminate].
Defined.

(** C9: on an absent value, a bare string or a list,
    [get_primary_whois_value] never returns the empty string: it returns
    "Not Found" or a string with a character that is not whitespace.
    Hence, when every field of every WHOIS record has one of these
    shapes, the registrant, the registrar and the inferred hosting
    provider that [main] ends with are non-empty. *)
Theorem get_primary_whois_value_never_empty :
  (∀ data, whois_shape data = true ->
     get_primary_whois_value data ≠ []
     ∧ (get_primary_whois_value data = py "Not Found"
        ∨ ∃ c, c ∈ get_primary_whois_value data ∧ is_space c = false))
  ∧ (∀ E args_domain st st' L,
       main E args_domain st = (Return L, st') ->
       (∀ t domain w key, whois_whois E t domain = Return w ->
                          whois_shape (get w key) = true) ->
       registrant L ≠ [] ∧ registrar L ≠ [] ∧ ns_registrar_info L ≠ []).
Proof.
  split.
  - intros data Hshape. split.
    + by apply get_primary_whois_value_not_empty.
    + by apply get_primary_whois_value_nonspace.
  - intros E args_domain st st' L
      (st1 & st2 & st3 & st4 & st5 & st6 & _ & Hw & Hrr & _ & _ & Hinf)%main_Return Hshape.
    destruct (registrant_registrar_nonempty (domain_whois L)) as [Hrg Hrr'].
    { intros w Heq key. rewrite Heq in Hw.
      apply get_whois_info_Some in Hw as [Hw _]. by eapply Hshape. }
    rewrite Hrr in Hrg, Hrr'. split; [done|]. split; [done|].
    apply infer_hosting_provider_Return in Hinf.
    destruct (first_nameserver L) as [[|c ns]|]; try by destruct Hinf as (_ & _ & ->).
    destruct Hinf as (st7 & _ & Hinf).
    destruct (ns_owner_domain L) as [owner|]; [|by destruct Hinf as [_ ->]].
    destruct Hinf as [Hdw ->].
    destruct (ns_domain_whois L) as [w|]; [|done].
    destruct (dict_truthy w); [|done].
    apply get_whois_info_Some in Hdw as [Hdw _].
    apply registrar_or_owner_org_nonempty. intros key. by eapply Hshape.
Qed.

Lemma acme_record_shape (key : pystr) : whois_shape (get acme_record key) = true.
Proof.
  unfold get, acme_record.
  destruct (decide (key = py "registrar")) as [->|Hregistrar];
    [by rewrite lookup_insert_eq|rewrite lookup_insert_ne by done].
  destruct (decide (key = py "org")) as [->|Horg];
    [by rewrite lookup_singleton_eq|by rewrite lookup_singleton_ne].
Qed.

Lemma get_primary_whois_value_never_empty_witness :
  get_primary_whois_value (VList [VStr (py "  "); VStr (py " Acme ")]) ≠ []
  ∧ ∃ L st', main E_acme example_org init = (Return L, st')
      ∧ registrant L ≠ [] ∧ registrar L ≠ [] ∧ ns_registrar_info L ≠ [].
Proof.
  split.
  - apply (proj1 get_primary_whois_value_never_empty
             (VList [VStr (py "  "); VStr (py " Acme ")])).
    reflexivity.
  - eexists _, _. split; [vm_compute; reflexivity|].
    eapply (proj2 get_primary_whois_value_never_empty E_acme example_org init);
      [vm_compute; reflexivity|].
    intros t domain w key [= <-]. apply acme_record_shape.
Defined.

Lemma Forall_renders_texts (rdatas : list rdata) :
  Forall renders rdatas ->
  ∃ texts, Forall2 (fun r text => to_text r = Return text) rdatas texts.
Proof.
  induction 1 as [|r rdatas [text Hr] _ [texts IH]]; [by exists []|].
  exists (text :: texts). by constructor.
Qed.

(** C10 (as amended): when [get_dns_records] returns a non-empty record
    list and every record of the answer renders, its error component is
    [None]. *)
Theorem get_dns_records_records_exclude_error (E : env) (domain record_type : pystr)
    (st st' : state) (records : list pystr) (error_msg : option pystr) :
  get_dns_records E domain record_type st = (Return (records, error_msg), st') ->
  records ≠ [] ->
  (∀ a rdatas, resolver_resolve E (S (clock st)) domain record_type false = Return a ->
               rrset a = Some rdatas -> Forall renders rdatas) ->
  error_msg = None.
Proof.
  intros Hrun Hne Hrenders. destruct records as [|first rest]; [done|].
  pose proof Hrun as (_ & HR & a & rdatas & Ha & Hrr)%get_dns_records_nonempty.
  destruct (Forall_renders_texts rdatas (Hrenders a rdatas Ha Hrr)) as [texts Htexts].
  rewrite (get_dns_records_answered E domain record_type st a rdatas HR Ha Hrr),
    (for_rdata_in_answer_renders rdatas texts [] Htexts) in Hrun.
  unfold dns_finish in Hrun. simpl in Hrun. injection Hrun as Hrecs <- _.
  by rewrite Hrecs.
Qed.

Lemma get_dns_records_records_exclude_error_witness :
  ∃ error_msg st',
    get_dns_records E_acme example_org (py "NS") init
    = (Return ([py "ns1.acme.net"; py "ns2.acme.net"], error_msg), st')
    ∧ error_msg = None.
Proof.
  eexists _, _. split; [vm_compute; reflexivity|].
  eapply (get_dns_records_records_exclude_error E_acme example_org (py "NS") init);
    [vm_compute; reflexivity|discriminate|].
  intros a rdatas [= <-] [= <-]. repeat constructor; by eexists.
Defined.

(** C10 as stated fails when a record of the answer cannot be rendered:
    the records appended before the failure are returned together with
    the message of the handler. *)
Lemma get_dns_records_records_exclude_error_counterexample :
  get_dns_records E_unrenderable example_org (py "NS") init
  = (Return ([py "ns1.acme.net"],
             Some (py "An unexpected DNS error occurred for 'example.org' (NS): bad record")),
     {| clock := 2; stdout := [] |}).
Proof. reflexivity. Qed.

(** * Further properties *)

(** ** Footprints of the lookups *)

Lemma footprint_refl (st : state) : footprint 0 0 [] st st.
Proof. split; [lia|by rewrite app_nil_r]. Qed.

Lemma footprint_trans (c1 c1' c2 c2' : nat) (out1 out2 : list pystr)
    (st st1 st2 : state) :
  footprint c1 c1' out1 st st1 -> footprint c2 c2' out2 st1 st2 ->
  footprint (c1 + c2) (c1' + c2') (out1 ++ out2) st st2.
Proof.
  intros [Hc1 Ho1] [Hc2 Ho2]. split; [lia|]. by rewrite Ho2, Ho1, app_assoc.
Qed.

Lemma footprint_weaken (c1 c1' c2 c2' : nat) (out : list pystr) (st st' : state) :
  (c2 <= c1)%nat -> (c1' <= c2')%nat ->
  footprint c1 c1' out st st' -> footprint c2 c2' out st st'.
Proof. intros ?? [Hc Ho]. split; [lia|done]. Qed.

Lemma print_footprint (line : pystr) (st st' : state) (u : result unit) :
  print line st = (u, st') -> u = Return tt ∧ footprint 0 0 [line] st st'.
Proof.
  unfold print. intros H. injection H; intros; subst u st'.
  split; [done|]. split; simpl; [lia|done].
Qed.

Lemma tick_footprint (st : state) : footprint 1 1 [] st (tick st).
Proof. split; simpl; [lia|by rewrite app_nil_r]. Qed.

Ltac solve_footprint := split; simpl; [lia|by rewrite ?app_nil_r].

Lemma get_whois_info_footprint (E : env) (domain : pystr) (st st' : state)
    (r : result (option whois_entry)) :
  get_whois_info E domain st = (r, st') ->
  ∃ out, footprint 1 1 out st st'
    ∧ match r with
      | Return (Some _) | Raise _ => out = []
      | Return None => ∃ warning, out = [warning]
      end.
Proof.
  unfold get_whois_info, try_except_lookup, bind, call, ret, print.
  destruct (whois_whois E (clock st) domain) as [w|e].
  - intros [= <- <-]. exists []. split; [solve_footprint|done].
  - simpl.
    repeat match goal with
           | |- context [if ?b then _ else _] => destruct b; simpl
           end;
      intros [= <- <-];
      first [ exists []; split; [solve_footprint|done]
            | eexists [_]; split; [solve_footprint|by eexists] ].
Qed.

Lemma cname_probe_state (E : env) (domain record_type : pystr) (st st' : state)
    (r : result (option pystr)) :
  cname_probe E domain record_type st = (r, st') -> st' = tick st.
Proof.
  unfold cname_probe, try_except, bind, call, ret, lift.
  destruct (resolver_resolve E (clock st) domain (py "CNAME") true) as [[[[|x xs]|]]|e];
    cbn [rrset]; try by intros [= <- <-].
  - destruct (to_text x) as [text|e]; [by intros [= <- <-]|].
    cbn [handle]. by case_match; intros [= <- <-].
  - cbn [handle]. by case_match; intros [= <- <-].
Qed.

Lemma dns_query_footprint (E : env) (domain record_type : pystr) (st st' : state)
    (r : result try_exit) (records : list pystr) :
  dns_query E domain record_type st = ((r, records), st') -> footprint 1 3 [] st st'.
Proof.
  unfold dns_query, bind, call, ret.
  destruct (dns_resolver_Resolver E (clock st)) as [[]|e];
    [|intros [= _ _ <-]; solve_footprint].
  destruct (resolver_resolve E (clock (tick st)) domain record_type false) as [a|e];
    [|intros [= _ _ <-]; solve_footprint].
  destruct (rrset a) as [rdatas|].
  { destruct (for_rdata_in_answer rdatas []). intros [= _ _ <-]. solve_footprint. }
  case_bool_decide; [|intros [= _ _ <-]; solve_footprint].
  destruct (cname_probe E domain record_type (tick (tick st))) as [[m|e] st1] eqn:Hp;
    apply cname_probe_state in Hp as ->; intros [= _ _ <-]; solve_footprint.
Qed.

Lemma get_dns_records_footprint (E : env) (domain record_type : pystr) (st st' : state)
    (r : result (list pystr * option pystr)) :
  get_dns_records E domain record_type st = (r, st') -> footprint 1 3 [] st st'.
Proof.
  unfold get_dns_records, bind, try_except_records.
  destruct (dns_query E domain record_type st) as [[[exit|e] recs] st1] eqn:Hq;
    apply dns_query_footprint in Hq.
  - by destruct exit as [[??]|??]; intros [= <- <-].
  - destruct (handle (dns_handlers domain record_type recs) e st1) as [[exit|e'] st2] eqn:Hh.
    + apply dns_handlers_Return in Hh as (-> & m & -> & _). by intros [= <- <-].
    + apply dns_handlers_Raise in Hh as (-> & _). by intros [= <- <-].
Qed.

Lemma get_registrable_domain_footprint (E : env) (fqdn : pystr) (st st' : state)
    (r : result (option pystr)) :
  get_registrable_domain E fqdn st = (r, st') ->
  ∃ out, footprint 0 1 out st st' ∧ (length out <= 1)%nat
    ∧ (fqdn = [] -> st' = st)
    ∧ match r with
      | Return (Some _) | Raise _ => out = []
      | Return None => fqdn ≠ [] -> ∃ line, out = [line]
      end.
Proof.
  unfold get_registrable_domain. destruct fqdn as [|c fqdn]; cbn [str_truthy negb].
  { intros [= <- <-]. exists []. split; [solve_footprint|].
    repeat split; simpl; [lia|intros Hne; by destruct Hne]. }
  unfold try_except, bind, call, ret, print.
  destruct (tldextract_extract E (clock st) (c :: fqdn)) as [reg|e].
  - destruct (str_truthy reg); intros [= <- <-].
    + exists []. split; [solve_footprint|]. repeat split; simpl; [lia|done].
    + eexists [_]. split; [solve_footprint|]. repeat split; simpl; [lia|done|].
      intros _. by eexists.
  - simpl. rewrite orb_false_r. destruct (exc_isinstance e Exception); intros [= <- <-].
    + eexists [_]. split; [solve_footprint|]. repeat split; simpl; [lia|done|].
      intros _. by eexists.
    + exists []. split; [solve_footprint|]. repeat split; simpl; [lia|done].
Qed.

Lemma select_first_nameserver_footprint (nameservers : list pystr)
    (ns_error_msg : option pystr) (st st' : state) (r : result (option pystr)) :
  select_first_nameserver nameservers ns_error_msg st = (r, st') ->
  ∃ line, footprint 0 0 [line] st st'
    ∧ line = match ns_error_msg, nameservers with
             | Some ((_ :: _) as m), _ => py "Error: " ++ m
             | _, _ :: _ => py "Nameservers: " ++ join (py ", ") nameservers
             | _, [] => py "No nameservers identified."
             end.
Proof.
  unfold select_first_nameserver, bind, print, ret.
  destruct ns_error_msg as [[|c m]|], nameservers as [|first rest]; cbn [str_truthy];
    intros [= <- <-]; eexists; (split; [solve_footprint|done]).
Qed.

Lemma infer_hosting_provider_footprint (E : env) (first_nameserver : option pystr)
    (st st' : state) (r : result (option pystr * option whois_entry * pystr)) :
  infer_hosting_provider E first_nameserver st = (r, st') ->
  ∃ out, footprint 0 2 out st st' ∧ (length out <= 2)%nat
    ∧ (first_nameserver = None ∨ first_nameserver = Some [] -> st' = st).
Proof.
  unfold infer_hosting_provider.
  destruct first_nameserver as [[|c ns]|]; cbn [str_truthy].
  1,3: intros [= <- <-]; exists []; split; [solve_footprint|split; [simpl; lia|done]].
  unfold bind.
  destruct (get_registrable_domain E (c :: ns) st) as [[od|e] st1] eqn:Hod;
    apply get_registrable_domain_footprint in Hod as (out1 & Hfp1 & Hlen1 & _ & Hout1).
  2:{ intros [= <- <-]. exists out1. subst out1.
      split; [by eapply footprint_weaken, Hfp1; lia|].
      split; [simpl; lia|]. by intros [|]. }
  destruct od as [owner|].
  2:{ unfold ret. intros [= <- <-]. exists out1.
      split; [by eapply footprint_weaken, Hfp1; lia|].
      split; [lia|]. by intros [|]. }
  subst out1. destruct (str_truthy owner).
  2:{ unfold ret. intros [= <- <-]. exists [].
      split; [by eapply footprint_weaken, Hfp1; lia|].
      split; [simpl; lia|]. by intros [|]. }
  destruct (get_whois_info E owner st1) as [[dw|e] st2] eqn:Hdw;
    apply get_whois_info_footprint in Hdw as (out2 & Hfp2 & Hout2).
  - pose proof (footprint_trans _ _ _ _ _ _ _ _ _ Hfp1 Hfp2) as Hfp.
    assert (length out2 <= 1)%nat as Hlen2.
    { destruct dw; [by subst|]. destruct Hout2 as [w ->]. simpl. lia. }
    destruct dw as [w|]; [destruct (dict_truthy w)|]; unfold ret; intros [= <- <-];
      exists ([] ++ out2);
      (split; [by eapply footprint_weaken, Hfp; lia|]);
      (split; [simpl; lia|by intros [|]]).
  - subst out2. pose proof (footprint_trans _ _ _ _ _ _ _ _ _ Hfp1 Hfp2) as Hfp.
    intros [= <- <-]. exists ([] ++ []).
    split; [by eapply footprint_weaken, Hfp; lia|].
    split; [simpl; lia|by intros [|]].
Qed.

(** ** More on stripping *)

Lemma lstrip_by_head (p : N -> bool) (s : pystr) (c : N) :
  head (lstrip_by p s) = Some c -> p c = false.
Proof.
  induction s as [|c0 s IH]; simpl; [done|].
  destruct (p c0) eqn:Hc0; [done|]. simpl. by intros [= <-].
Qed.

Lemma rstrip_by_head (p : N -> bool) (s : pystr) (c : N) :
  head (rstrip_by p s) = Some c -> head s = Some c.
Proof.
  destruct s as [|c0 s]; simpl; [done|].
  destruct (rstrip_by p s); [by destruct (p c0)|done].
Qed.

Lemma strip_ends (s : pystr) :
  (∀ c, head (strip s) = Some c -> is_space c = false)
  ∧ (∀ c, last (strip s) = Some c -> is_space c = false).
Proof.
  split; intros c Hc.
  - by eapply lstrip_by_head, rstrip_by_head.
  - by eapply rstrip_by_last.
Qed.

Lemma omap_kept_item_skip (pre : list pyval) (rest : list pyval) :
  (∀ item t, item ∈ pre -> item = VStr t -> strip t = []) ->
  omap kept_item (pre ++ rest) = omap kept_item rest.
Proof.
  induction pre as [|item pre IH]; intros Hpre; [done|].
  assert (omap kept_item (pre ++ rest) = omap kept_item rest) as IH'
    by (apply IH; intros i t Hi; apply Hpre; by right).
  unfold omap in IH' |- *. simpl. rewrite IH'.
  destruct item as [|t| |]; simpl; try done.
  by rewrite (Hpre (VStr t) t (list_elem_of_here _ _) eq_refl).
Qed.

(** * Further properties of the code *)

(** X1: [get_registrable_domain] returns [None] or a non-empty string,
    and the only exceptions it lets through are those that are not an
    [Exception]. *)
Theorem get_registrable_domain_result (E : env) (fqdn : pystr) (st : state) :
  match (get_registrable_domain E fqdn st).1 with
  | Return (Some owner) => owner ≠ []
  | Return None => True
  | Raise e => exc_isinstance e Exception = false
  end.
Proof.
  destruct (get_registrable_domain E fqdn st) as [[[owner|]|e] st'] eqn:Hrun; simpl.
  - by eapply str_truthy_nonempty, get_registrable_domain_Return.
  - done.
  - by eapply get_registrable_domain_Raise.
Qed.

(** X2: a call of [get_registrable_domain] on a non-empty name makes
    one extraction; it prints exactly one line when it returns [None]
    and nothing when it returns a domain.  On the empty name it returns
    [None] at once, with no extraction and nothing printed. *)
Theorem get_registrable_domain_reports (E : env) (fqdn : pystr) (st st' : state)
    (r : option pystr) :
  get_registrable_domain E fqdn st = (Return r, st') ->
  match fqdn with
  | [] => r = None ∧ st' = st
  | _ :: _ =>
      clock st' = S (clock st)
      ∧ match r with
        | Some _ => stdout st' = stdout st
        | None => ∃ line, stdout st' = stdout st ++ [line]
        end
  end.
Proof.
  intros Hrun. destruct fqdn as [|c fqdn].
  - by injection Hrun as <- <-.
  - pose proof Hrun as (out & [Hclock Hout] & _ & _ & Hr)%get_registrable_domain_footprint.
    assert (clock st' = S (clock st)) as Hcalls.
    { revert Hrun. unfold get_registrable_domain. cbn [str_truthy negb].
      unfold try_except, bind, call, ret, print.
      destruct (tldextract_extract E (clock st) (c :: fqdn)) as [reg|e]; simpl.
      - by destruct (str_truthy reg); intros [= _ <-].
      - by repeat case_match; intros; simplify_eq. }
    split; [done|]. destruct r as [owner|].
    + subst out. by rewrite app_nil_r in Hout.
    + destruct Hr as [line ->]; [done|]. by exists line.
Qed.

Lemma get_registrable_domain_reports_witness :
  ∃ st', get_registrable_domain E_acme (py "ns1.acme.net") init
         = (Return (Some (py "acme.net")), st')
    ∧ clock st' = 1%nat ∧ stdout st' = [].
Proof.
  eexists. split; [vm_compute; reflexivity|].
  eapply (get_registrable_domain_reports E_acme (py "ns1.acme.net") init _
            (Some (py "acme.net"))).
  vm_compute; reflexivity.
Defined.

(** X3: with python-whois, whose [whois.exceptions] has no
    [UnknownTld], [get_whois_info] never returns [None]: when it returns,
    the WHOIS query succeeded, the result is the record of that query,
    one call was made and nothing was printed. *)
Theorem get_whois_info_returns_record (E : env) (domain : pystr) (st st' : state)
    (r : option whois_entry) :
  whois_exceptions E UnknownTld = false ->
  get_whois_info E domain st = (Return r, st') ->
  ∃ w, r = Some w ∧ whois_whois E (clock st) domain = Return w ∧ st' = tick st.
Proof.
  intros Hdef Hrun. destruct r as [w|].
  - exists w. split; [done|]. by apply get_whois_info_Some.
  - apply get_whois_info_None in Hrun as [Habs _]. congruence.
Qed.

Lemma get_whois_info_returns_record_witness :
  ∃ w, Some acme_record = Some w
    ∧ whois_whois E_acme (clock init) example_org = Return w
    ∧ {| clock := 1; stdout := [] |} = tick init.
Proof.
  apply (get_whois_info_returns_record E_acme example_org init
           {| clock := 1; stdout := [] |} (Some acme_record));
    reflexivity.
Defined.

(** X5: [get_dns_records] prints nothing, whatever its outcome, and
    makes at least one and at most three external calls (the resolver,
    the query and the CNAME probe). *)
Theorem get_dns_records_silent (E : env) (domain record_type : pystr) (st : state) :
  stdout (get_dns_records E domain record_type st).2 = stdout st
  ∧ (clock st + 1 <= clock (get_dns_records E domain record_type st).2 <= clock st + 3)%nat.
Proof.
  destruct (get_dns_records E domain record_type st) as [r st'] eqn:Hrun.
  apply get_dns_records_footprint in Hrun as [Hclock Hout]. simpl.
  split; [by rewrite Hout, app_nil_r|lia].
Qed.

Lemma for_rdata_in_answer_Return (rdatas : list rdata) (records recs : list pystr)
    (exit : try_exit) :
  for_rdata_in_answer rdatas records = (Return exit, recs) ->
  ∃ texts, Forall2 (fun r text => to_text r = Return text) rdatas texts
    ∧ recs = records ++ map (rstrip (py ".")) texts.
Proof.
  revert records. induction rdatas as [|r rest IH]; intros records; simpl.
  - intros [= _ <-]. exists []. split; [constructor|by rewrite app_nil_r].
  - destruct (to_text r) as [text|e] eqn:Hr; [|done].
    intros (texts & Hall & ->)%IH. exists (text :: texts).
    split; [by constructor|]. by rewrite <-app_assoc.
Qed.

(** X6: [get_dns_records] returns records without a message only when
    the resolver was built, the query was answered with a result set
    and every record of it rendered; in every other case it returns a
    non-empty message, unless what was raised is not an [Exception],
    which it lets through. *)
Theorem get_dns_records_outcome (E : env) (domain record_type : pystr) (st : state) :
  match (get_dns_records E domain record_type st).1 with
  | Return (records, None) =>
      records ≠ []
      ∧ dns_resolver_Resolver E (clock st) = Return tt
      ∧ ∃ a rdatas texts,
          resolver_resolve E (S (clock st)) domain record_type false = Return a
          ∧ rrset a = Some rdatas
          ∧ Forall2 (fun r text => to_text r = Return text) rdatas texts
          ∧ records = map (rstrip (py ".")) texts
  | Return (records, Some m) => m ≠ []
  | Raise e => exc_isinstance e Exception = false
  end.
Proof.
  destruct (get_dns_records E domain record_type st) as [[[records [m|]]|e] st'] eqn:Hrun;
    simpl.
  - apply get_dns_records_Return in Hrun as (_ & [?|(m' & [= <-] & Hm)] & _); [done|].
    by apply str_truthy_nonempty.
  - pose proof Hrun as (_ & _ & Hempty)%get_dns_records_Return.
    destruct records as [|first rest]; [by destruct Hempty as (? & ? & _)|].
    split; [done|].
    pose proof Hrun as (_ & HR & a & rdatas & Ha & Hrr)%get_dns_records_nonempty.
    split; [done|]. exists a, rdatas.
    rewrite (get_dns_records_answered E domain record_type st a rdatas HR Ha Hrr) in Hrun.
    destruct (for_rdata_in_answer rdatas []) as [[exit|e] recs] eqn:Hloop.
    + apply for_rdata_in_answer_Return in Hloop as (texts & Hall & ->).
      exists texts. unfold dns_finish in Hrun. by injection Hrun as <- _.
    + destruct (handle (dns_handlers domain record_type recs) e (tick (tick st)))
        as [[exit|e'] st1] eqn:Hh; [|done].
      apply dns_handlers_Return in Hh as (_ & m & -> & Hm).
      unfold dns_finish in Hrun. rewrite Hm in Hrun. simpl in Hrun.
      rewrite andb_false_r in Hrun. by injection Hrun.
  - by eapply get_dns_records_Raise.
Qed.

(** X7: when the query is answered with a result set whose records all
    render, [get_dns_records] returns one string per record, in the
    order of the answer, each the text of the record without its
    trailing dots, and no error message; it makes two external calls. *)
Theorem get_dns_records_success (E : env) (domain record_type : pystr) (st : state)
    (a : answer) (r : rdata) (rs : list rdata) (texts : list pystr) :
  dns_resolver_Resolver E (clock st) = Return tt ->
  resolver_resolve E (S (clock st)) domain record_type false = Return a ->
  rrset a = Some (r :: rs) ->
  Forall2 (fun x text => to_text x = Return text) (r :: rs) texts ->
  get_dns_records E domain record_type st
  = (Return (map (rstrip (py ".")) texts, None), tick (tick st)).
Proof.
  intros HR Ha Hrr Htexts.
  rewrite (get_dns_records_answered E domain record_type st a (r :: rs) HR Ha Hrr),
    (for_rdata_in_answer_renders (r :: rs) texts [] Htexts).
  unfold dns_finish. cbn [app]. by inversion Htexts.
Qed.

Lemma get_dns_records_success_witness :
  get_dns_records E_acme example_org (py "NS") init
  = (Return (map (rstrip (py ".")) [py "ns1.acme.net."; py "ns2.acme.net."], None),
     {| clock := 2; stdout := [] |}).
Proof.
  apply (get_dns_records_success E_acme example_org (py "NS") init
           {| rrset := Some [ {| to_text := Return (py "ns1.acme.net.") |};
                              {| to_text := Return (py "ns2.acme.net.") |} ] |}
           {| to_text := Return (py "ns1.acme.net.") |}
           [ {| to_text := Return (py "ns2.acme.net.") |} ]);
    [reflexivity..|by repeat constructor].
Defined.

(** X8: for a record type other than the exact string "NS", a query
    without a result set returns the plain message after two external
    calls: there is no CNAME probe. *)
Theorem get_dns_records_no_probe (E : env) (domain record_type : pystr) (st : state)
    (a : answer) :
  record_type ≠ py "NS" ->
  dns_resolver_Resolver E (clock st) = Return tt ->
  resolver_resolve E (S (clock st)) domain record_type false = Return a ->
  rrset a = None ->
  get_dns_records E domain record_type st
  = (Return ([], Some (py "No " ++ record_type ++ py " records found.")), tick (tick st)).
Proof.
  intros Hrt HR Ha Hrr.
  unfold get_dns_records, try_except_records, dns_query, bind, call, ret.
  rewrite HR. cbn [tick clock]. rewrite Ha, Hrr.
  by rewrite bool_decide_eq_false_2.
Qed.

Lemma get_dns_records_no_probe_witness :
  get_dns_records E_cname example_org (py "ns") init
  = (Return ([], Some (py "No ns records found.")), {| clock := 2; stdout := [] |}).
Proof.
  apply (get_dns_records_no_probe E_cname example_org (py "ns") init {| rrset := None |});
    [discriminate|reflexivity..].
Defined.

(** X9: when the CNAME probe of an NS query fails with a timeout, the
    clauses of the outer [try] take over: the result is no records and
    the timeout message for NS records. *)
Theorem get_dns_records_probe_timeout (E : env) (domain : pystr) (st : state)
    (a : answer) (e : exc) :
  dns_resolver_Resolver E (clock st) = Return tt ->
  resolver_resolve E (S (clock st)) domain (py "NS") false = Return a ->
  rrset a = None ->
  resolver_resolve E (S (S (clock st))) domain (py "CNAME") true = Raise e ->
  exc_isinstance e NoAnswer = false ->
  exc_isinstance e NXDOMAIN = false ->
  exc_isinstance e NoNameservers = false ->
  exc_isinstance e Timeout = true ->
  (get_dns_records E domain (py "NS") st).1
  = Return ([], Some (py "DNS query for NS records of '" ++ domain ++ py "' timed out.")).
Proof.
  intros HR Ha Hrr Hp HNoAnswer HNX HNoNS HTimeout.
  rewrite (get_dns_records_NS_no_rrset E domain st a HR Ha Hrr).
  unfold cname_probe, try_except, bind, call, ret. cbn [tick clock]. rewrite Hp.
  cbn [handle existsb dns_handlers]. rewrite HNoAnswer, HNX. cbn [orb].
  unfold dns_handlers. cbn [handle existsb].
  by rewrite HNX, HNoAnswer, HNoNS, HTimeout.
Qed.

Lemma get_dns_records_probe_timeout_witness :
  (get_dns_records
     (sample_env (Return acme_record) no_records
                 (Raise (mk_exc [Timeout; Exception] (py "timeout"))) [])
     example_org (py "NS") init).1
  = Return ([], Some (py "DNS query for NS records of 'example.org' timed out.")).
Proof.
  apply (get_dns_records_probe_timeout
           (sample_env (Return acme_record) no_records
                       (Raise (mk_exc [Timeout; Exception] (py "timeout"))) [])
           example_org init {| rrset := None |}
           (mk_exc [Timeout; Exception] (py "timeout")));
    reflexivity.
Defined.

(** X10: when the query raises an exception that is an [NXDOMAIN], the
    result is no records and the message that the domain does not exist,
    whatever the record type and whatever else the exception is an
    instance of. *)
Theorem get_dns_records_NXDOMAIN (E : env) (domain record_type : pystr) (st : state)
    (e : exc) :
  dns_resolver_Resolver E (clock st) = Return tt ->
  resolver_resolve E (S (clock st)) domain record_type false = Raise e ->
  exc_isinstance e NXDOMAIN = true ->
  (get_dns_records E domain record_type st).1
  = Return ([], Some (py "Domain '" ++ domain ++ py "' does not exist (NXDOMAIN).")).
Proof.
  intros HR He HNX.
  unfold get_dns_records, try_except_records, dns_query, bind, call, ret.
  rewrite HR. cbn [tick clock]. rewrite He.
  unfold dns_handlers. cbn [handle existsb]. by rewrite HNX.
Qed.

Lemma get_dns_records_NXDOMAIN_witness :
  (get_dns_records
     (sample_env (Return acme_record)
                 (Raise (mk_exc [NXDOMAIN; Exception] (py "nx"))) no_records [])
     example_org (py "NS") init).1
  = Return ([], Some (py "Domain 'example.org' does not exist (NXDOMAIN).")).
Proof.
  apply (get_dns_records_NXDOMAIN
           (sample_env (Return acme_record)
                       (Raise (mk_exc [NXDOMAIN; Exception] (py "nx"))) no_records [])
           example_org (py "NS") init (mk_exc [NXDOMAIN; Exception] (py "nx")));
    reflexivity.
Defined.

(** X11: from a list, [get_primary_whois_value] returns, as it stands,
    the first entry that is a string with something other than
    whitespace in it: entries before it that are not strings, or are
    blank strings, are passed over, and entries after it are ignored. *)
Theorem get_primary_whois_value_first_nonblank (pre post : list pyval) (s : pystr) :
  (∀ item t, item ∈ pre -> item = VStr t -> strip t = []) ->
  strip s ≠ [] ->
  get_primary_whois_value (VList (pre ++ VStr s :: post)) = s.
Proof.
  intros Hpre Hs. rewrite get_primary_whois_value_list, omap_kept_item_skip by done.
  simpl. apply str_truthy_nonempty in Hs. by rewrite Hs.
Qed.

Lemma get_primary_whois_value_first_nonblank_witness :
  get_primary_whois_value
    (VList ([VNone; VStr (py " ")] ++ VStr (py "Acme ") :: [VStr (py "Other")]))
  = py "Acme ".
Proof.
  apply (get_primary_whois_value_first_nonblank [VNone; VStr (py " ")]
           [VStr (py "Other")] (py "Acme ")).
  - intros item t [->|[->|[]%elem_of_nil]%elem_of_cons]%elem_of_cons; [done|].
    by intros [= <-].
  - discriminate.
Defined.

(** X12: from a bare string, [get_primary_whois_value] returns "Not
    Found" or a string that neither begins nor ends with whitespace. *)
Theorem get_primary_whois_value_str_trimmed (s : pystr) :
  get_primary_whois_value (VStr s) = py "Not Found"
  ∨ (get_primary_whois_value (VStr s) = strip s
     ∧ (∀ c, head (get_primary_whois_value (VStr s)) = Some c -> is_space c = false)
     ∧ (∀ c, last (get_primary_whois_value (VStr s)) = Some c -> is_space c = false)).
Proof.
  simpl. destruct (str_truthy (strip s)); [right|by left].
  split; [done|apply strip_ends].
Qed.

(** The steps of a run of [main], with the states between them. *)
Lemma main_steps (E : env) (args_domain : pystr) (st st' : state) (L : locals) :
  main E args_domain st = (Return L, st') ->
  ∃ s0 s1 s2 s3 s4 s5,
    footprint 0 0 [py "--- Checking Domain: " ++ domain_to_check L ++ py " ---" ++ [10]]
      st s0
    ∧ get_whois_info E (domain_to_check L) s0 = (Return (domain_whois L), s1)
    ∧ footprint 0 0 [py "Domain Registrant: " ++ registrant L;
                     py "Domain Registrar: " ++ registrar L] s1 s2
    ∧ get_dns_records E (domain_to_check L) (py "NS") s2
      = (Return (nameservers L, ns_error_msg L), s3)
    ∧ select_first_nameserver (nameservers L) (ns_error_msg L) s3
      = (Return (first_nameserver L), s4)
    ∧ infer_hosting_provider E (first_nameserver L) s4
      = (Return (ns_owner_domain L, ns_domain_whois L, ns_registrar_info L), s5)
    ∧ footprint 0 0 [py "Inferred DNS Hosting Provider: " ++ ns_registrar_info L;
                     [10] ++ py "--- Check Complete for: " ++ domain_to_check L
                     ++ py " ---"] s5 st'.
Proof.
  unfold main.
  intros (u0 & s0 & Hp0 & (dw & s1 & Hdw & Hrest)%bind_Return)%bind_Return.
  destruct (registrant_registrar dw) as [rg rr] eqn:Hrr.
  apply bind_Return in Hrest as (u1 & s1a & Hp1 & (u2 & s2 & Hp2 & Hrest)%bind_Return).
  apply bind_Return in Hrest as ([ns err] & s3 & Hns & Hrest).
  apply bind_Return in Hrest as (fn & s4 & Hfn & Hrest).
  apply bind_Return in Hrest as ([[od ndw] info] & s5 & Hinf & Hrest).
  apply bind_Return in Hrest as (u3 & s5a & Hp3 & (u4 & s6 & Hp4 & Hrest)%bind_Return).
  injection Hrest as <- <-. simpl.
  apply print_footprint in Hp0 as [_ Hp0]. apply print_footprint in Hp1 as [_ Hp1].
  apply print_footprint in Hp2 as [_ Hp2]. apply print_footprint in Hp3 as [_ Hp3].
  apply print_footprint in Hp4 as [_ Hp4].
  pose proof (footprint_trans _ _ _ _ _ _ _ _ _ Hp1 Hp2) as Hp12.
  pose proof (footprint_trans _ _ _ _ _ _ _ _ _ Hp3 Hp4) as Hp34.
  exists s0, s1, s2, s3, s4, s5. by split_and!.
Qed.

(** X13: the only [Exception] that [main] lets through is the
    [AttributeError] of a name that [whois.exceptions] lacks, raised by
    the [except] clauses of [get_whois_info]: no failure of a DNS query,
    of rendering a record or of the extraction ends the run. *)
Theorem main_lets_through (E : env) (args_domain : pystr) (st st' : state) (e : exc) :
  main E args_domain st = (Raise e, st') ->
  exc_isinstance e Exception = true ->
  ∃ c, whois_exceptions E c = false ∧ e = no_attribute c.
Proof.
  intros [Hnot|Hattr]%main_Raise He; [congruence|done].
Qed.

Lemma main_lets_through_witness :
  ∃ c, whois_exceptions E_no_match c = false ∧ no_attribute UnknownTld = no_attribute c.
Proof.
  apply (main_lets_through E_no_match example_org init
           {| clock := 1; stdout := [py "--- Checking Domain: example.org ---" ++ [10]] |}
           (no_attribute UnknownTld));
    reflexivity.
Defined.

(** X14: what a run of [main] prints, in order: the banner; one warning
    exactly when the WHOIS lookup of the domain returned [None]; the
    registrant and registrar lines; one nameserver line, which is the
    error message of the NS lookup when there is one and the
    comma-separated nameservers otherwise (the line "No nameservers
    identified." is never printed); at most two warnings of the
    inference step; the hosting-provider line; and the footer. *)
Theorem main_output (E : env) (args_domain : pystr) (st st' : state) (L : locals) :
  main E args_domain st = (Return L, st') ->
  ∃ warn extra,
    stdout st'
    = stdout st
      ++ [py "--- Checking Domain: " ++ domain_to_check L ++ py " ---" ++ [10]]
      ++ warn
      ++ [py "Domain Registrant: " ++ registrant L;
          py "Domain Registrar: " ++ registrar L;
          match ns_error_msg L with
          | Some m => py "Error: " ++ m
          | None => py "Nameservers: " ++ join (py ", ") (nameservers L)
          end]
      ++ extra
      ++ [py "Inferred DNS Hosting Provider: " ++ ns_registrar_info L;
          [10] ++ py "--- Check Complete for: " ++ domain_to_check L ++ py " ---"]
    ∧ match domain_whois L with
      | Some _ => warn = []
      | None => ∃ warning, warn = [warning]
      end
    ∧ (length extra <= 2)%nat.
Proof.
  intros (s0 & s1 & s2 & s3 & s4 & s5 & [_ H0] & Hw & [_ H2] & Hdns & Hsel & Hinf & [_ H6])
    %main_steps.
  apply get_whois_info_footprint in Hw as (warn & [_ H1] & Hwarn).
  pose proof Hdns as [_ H3]%get_dns_records_footprint.
  apply get_dns_records_Return in Hdns as (_ & Hmsg & Hempty).
  apply select_first_nameserver_footprint in Hsel as (line & [_ H4] & Hline).
  apply infer_hosting_provider_footprint in Hinf as (extra & [_ H5] & Hextra & _).
  exists warn, extra. split; [|split; [by destruct (domain_whois L)|done]].
  rewrite H6, H5, H4, H3, H2, H1, H0, Hline. rewrite app_nil_r, <-!app_assoc.
  do 2 f_equal. simpl. do 3 f_equal.
  destruct Hmsg as [Hnone|(m & Hm & Htruthy)].
  - rewrite Hnone. destruct (nameservers L) as [|first rest]; [|done].
    destruct Hempty as (m & Hm & _); [done|]. congruence.
  - rewrite Hm. destruct m; [done|]. by destruct (nameservers L).
Qed.

Lemma main_output_witness :
  ∃ L st' extra,
    main E_acme example_org init = (Return L, st')
    ∧ stdout st'
      = [py "--- Checking Domain: example.org ---" ++ [10];
         py "Domain Registrant: Acme Inc.";
         py "Domain Registrar: Acme Registrar";
         py "Nameservers: ns1.acme.net, ns2.acme.net"]
        ++ extra
        ++ [py "Inferred DNS Hosting Provider: Acme Registrar";
            [10] ++ py "--- Check Complete for: example.org ---"]
    ∧ (length extra <= 2)%nat.
Proof.
  edestruct (main_output E_acme example_org init) as (warn & extra & Hout & Hwarn & Hextra);
    [vm_compute; reflexivity|].
  simpl in Hwarn. subst warn.
  eexists _, _, extra. split; [vm_compute; reflexivity|]. split; [|exact Hextra].
  rewrite Hout. vm_compute. reflexivity.
Defined.

(** X15: a run of [main] makes at least two and at most five external
    calls. *)
Theorem main_call_budget (E : env) (args_domain : pystr) (st st' : state) (L : locals) :
  main E args_domain st = (Return L, st') ->
  (clock st + 2 <= clock st' <= clock st + 5)%nat.
Proof.
  intros (s0 & s1 & s2 & s3 & s4 & s5 & [H0 _] & Hw & [H2 _] & Hdns & Hsel & Hinf & [H6 _])
    %main_steps.
  apply get_whois_info_footprint in Hw as (warn & [H1 _] & _).
  pose proof Hdns as [H3 _]%get_dns_records_footprint.
  pose proof Hsel as (line & [H4 _] & _)%select_first_nameserver_footprint.
  apply select_first_nameserver_Return in Hsel.
  pose proof Hinf as (extra & [H5 _] & _ & Hidle)%infer_hosting_provider_footprint.
  split; [lia|].
  destruct (nameservers L) as [|first rest] eqn:Hns.
  - assert (first_nameserver L = None) as Hnone.
    { rewrite Hsel. by destruct (ns_error_msg L) as [m|]; [destruct (str_truthy m)|]. }
    rewrite (Hidle (or_introl Hnone)) in *. lia.
  - destruct (ns_error_msg L) as [m|] eqn:Herr.
    + destruct (str_truthy m) eqn:Hm.
      * rewrite (Hidle (or_introl Hsel)) in *. lia.
      * apply get_dns_records_Return in Hdns as (_ & [?|(m' & [= <-] & ?)] & _);
          congruence.
    + apply get_dns_records_nonempty in Hdns as (-> & _). simpl in *. lia.
Qed.

Lemma main_call_budget_witness :
  ∃ L st', main E_acme example_org init = (Return L, st')
    ∧ (clock init + 2 <= clock st' <= clock init + 5)%nat.
Proof.
  eexists _, _. split; [vm_compute; reflexivity|].
  eapply (main_call_budget E_acme example_org init).
  vm_compute; reflexivity.
Defined.

(** ** Packaging script *)

Lemma requirement_of_line_Some (line r : pystr) :
  requirement_of_line line = Some r <->
  r = strip line ∧ strip line ≠ [] ∧ startswith (py "#") line = false.
Proof.
  unfold requirement_of_line.
  destruct (str_truthy (strip line)) eqn:Hs, (startswith (py "#") line) eqn:Hc; simpl;
    (split; [intros [= <-]|intros (-> & Hne & Hst)]); try done.
  - by apply str_truthy_nonempty in Hs.
  - apply str_truthy_nonempty in Hne. congruence.
Qed.

(** X16: every entry returned by [get_requirements] is non-empty and
    neither begins nor ends with whitespace. *)
Theorem get_requirements_entries_trimmed (open_file : pystr -> result (list pystr))
    (file_path : pystr) (reqs : list pystr) :
  get_requirements open_file file_path = Return reqs ->
  ∀ r, r ∈ reqs ->
    r ≠ []
    ∧ (∀ c, head r = Some c -> is_space c = false)
    ∧ (∀ c, last r = Some c -> is_space c = false).
Proof.
  unfold get_requirements. destruct (open_file file_path) as [f|e]; [|done].
  intros [= <-] r (line & _ & (-> & Hne & _)%requirement_of_line_Some)%list_elem_of_omap.
  split; [done|apply strip_ends].
Qed.

Lemma get_requirements_entries_trimmed_witness :
  py "dnspython>=2.0" ≠ []
  ∧ (∀ c, head (py "dnspython>=2.0") = Some c -> is_space c = false)
  ∧ (∀ c, last (py "dnspython>=2.0") = Some c -> is_space c = false).
Proof.
  apply (get_requirements_entries_trimmed open_requirements (py "requirements.txt")
           [py "dnspython>=2.0"; py "# pinned"; py "tldextract"]).
  - reflexivity.
  - left.
Defined.

(** X17: [get_requirements] returns no entry exactly when every line of
    the file is blank or begins with '#'. *)
Theorem get_requirements_empty_iff (open_file : pystr -> result (list pystr))
    (file_path : pystr) (f : list pystr) :
  open_file file_path = Return f ->
  get_requirements open_file file_path = Return []
  <-> ∀ line, line ∈ f -> strip line = [] ∨ startswith (py "#") line = true.
Proof.
  intros Hopen. unfold get_requirements. rewrite Hopen. split.
  - intros [= Hnil] line Hin.
    destruct (requirement_of_line line) as [r|] eqn:Hr.
    + assert (r ∈ omap requirement_of_line f) as Habs
        by (apply list_elem_of_omap; by exists line).
      rewrite Hnil in Habs. by apply elem_of_nil in Habs.
    + destruct (startswith (py "#") line) eqn:Hst; [by right|].
      destruct (strip line) eqn:Hs; [by left|].
      unfold requirement_of_line in Hr. by rewrite Hs, Hst in Hr.
  - intros Hall. f_equal.
    destruct (omap requirement_of_line f) as [|r rs] eqn:Hreqs; [done|].
    assert (r ∈ omap requirement_of_line f) as Hin by (rewrite Hreqs; left).
    apply list_elem_of_omap in Hin
      as (line & Hline & (-> & Hne & Hst)%requirement_of_line_Some).
    destruct (Hall line Hline); congruence.
Qed.

Lemma get_requirements_empty_iff_witness :
  get_requirements (fun _ => Return [py "# only a comment" ++ [10]; [32; 10]])
    (py "requirements.txt")
  = Return [].
Proof.
  apply (get_requirements_empty_iff
           (fun _ => Return [py "# only a comment" ++ [10]; [32; 10]])
           (py "requirements.txt") [py "# only a comment" ++ [10]; [32; 10]] eq_refl).
  intros line [->|[->|[]%elem_of_nil]%elem_of_cons]%elem_of_cons.
  - right. reflexivity.
  - left. reflexivity.
Defined.

(** X18: the comment test of [get_requirements] looks at the line as
    read, not at the stripped line: a non-blank line that begins with
    whitespace is kept, stripped, even when what follows the whitespace
    begins with '#'. *)
Theorem get_requirements_keeps_indented (open_file : pystr -> result (list pystr))
    (file_path : pystr) (f : list pystr) (c : N) (rest : pystr) :
  open_file file_path = Return f ->
  c :: rest ∈ f ->
  is_space c = true ->
  strip (c :: rest) ≠ [] ->
  ∃ reqs, get_requirements open_file file_path = Return reqs
    ∧ strip (c :: rest) ∈ reqs.
Proof.
  intros Hopen Hin Hc Hne. unfold get_requirements. rewrite Hopen.
  eexists. split; [done|]. apply list_elem_of_omap. exists (c :: rest). split; [done|].
  apply requirement_of_line_Some. split; [done|split; [done|]].
  replace (py "#") with [35] by reflexivity. cbn [startswith].
  rewrite andb_true_r. apply N.eqb_neq. by intros <-.
Qed.

Lemma get_requirements_keeps_indented_witness :
  ∃ reqs, get_requirements open_requirements (py "requirements.txt") = Return reqs
    ∧ py "# pinned" ∈ reqs.
Proof.
  apply (get_requirements_keeps_indented open_requirements (py "requirements.txt")
           requirements_txt 32 (py " # pinned" ++ [10])).
  - reflexivity.
  - do 3 right. left.
  - reflexivity.
  - discriminate.
Defined.

(** ** Registrant *)

(** X19: the choice between "name" and "registrant_name" is made by
    truth value, before the primary value is taken: when the record has
    a "name" that is true but has no primary value (a list of blank
    strings, say), "registrant_name" is not consulted and the registrant
    is the primary value of the organisation fields. *)
Theorem main_registrant_ignores_registrant_name (E : env) (args_domain : pystr)
    (st st' : state) (L : locals) (w : whois_entry) :
  main E args_domain st = (Return L, st') ->
  domain_whois L = Some w ->
  w ≠ ∅ ->
  truthy (get w (py "name")) = true ->
  get_primary_whois_value (get w (py "name")) = py "Not Found" ->
  registrant L
  = get_primary_whois_value
      (py_or (get w (py "org")) (get w (py "registrant_organization"))).
Proof.
  intros (st1 & st2 & st3 & st4 & st5 & st6 & _ & _ & Hrr & _)%main_Return
    Hw Hne%dict_truthy_nonempty Htruthy Hname.
  rewrite Hw in Hrr. unfold registrant_registrar in Hrr. rewrite Hne in Hrr.
  assert (py_or (get w (py "name")) (get w (py "registrant_name")) = get w (py "name"))
    as Hor by (unfold py_or; by rewrite Htruthy).
  rewrite Hor, Hname in Hrr. injection Hrr as <- _.
  by case_bool_decide as Horg.
Qed.

Lemma main_registrant_ignores_registrant_name_witness :
  ∃ L st', main E_blank_name example_org init = (Return L, st')
    ∧ registrant L = py "Acme Inc.".
Proof.
  eexists _, _. split; [vm_compute; reflexivity|].
  erewrite (main_registrant_ignores_registrant_name E_blank_name example_org init _ _
              blank_name_record);
    [vm_compute; reflexivity|vm_compute; reflexivity|reflexivity| |reflexivity|reflexivity].
  intros Habs. apply (f_equal (fun m : whois_entry => m !! py "org")) in Habs.
  vm_compute in Habs. discriminate.
Defined.
